(** * Lambda handlers for GameLift: a shallow embedding

    Two request handlers are embedded here:
    - [gamelift_handler] (src/modules/lambda/python/src/gamelift_handler.py),
      the Fleet Handler, which lists and describes GameLift fleets;
    - [handler] (src/modules/lambda/python/src/handler.py), the Demo Handler
      with its [health_check] entry point.

    Python values are an inductive type, exceptions are explicit results,
    and the remote GameLift calls are recorded in a call log that is
    threaded through the handlers. *)

From Stdlib Require Import String Ascii List ZArith Bool Lia DecimalString.
Import ListNotations.
Local Open Scope list_scope.
Local Open Scope string_scope.
#[local] Set Warnings "-register-all".

(** ** Python values *)

(** The values that events, decoded JSON bodies and boto3 responses are
    made of.  A float is identified with its [repr()] text and a
    [datetime] with its [isoformat()] text; a dict keeps its insertion
    order and has string keys. *)
Inductive pyval : Type :=
| PNone
| PBool (b : bool)
| PInt (n : Z)
| PFloat (repr : string)
| PStr (s : string)
| PList (items : list pyval)
| PDict (entries : list (string * pyval))
| PDatetime (iso : string).

Definition pydict : Type := list (string * pyval).

(** Induction principle that reaches the values nested in lists and
    dicts. *)
Fixpoint pyval_nested_ind (P : pyval -> Prop)
    (HNone : P PNone)
    (HBool : forall b, P (PBool b))
    (HInt : forall n, P (PInt n))
    (HFloat : forall r, P (PFloat r))
    (HStr : forall s, P (PStr s))
    (HList : forall items, Forall P items -> P (PList items))
    (HDict : forall entries, Forall (fun kv => P (snd kv)) entries ->
                             P (PDict entries))
    (HDatetime : forall iso, P (PDatetime iso))
    (v : pyval) {struct v} : P v :=
  let rec := pyval_nested_ind P HNone HBool HInt HFloat HStr HList HDict
                              HDatetime in
  match v with
  | PNone => HNone
  | PBool b => HBool b
  | PInt n => HInt n
  | PFloat r => HFloat r
  | PStr s => HStr s
  | PList items =>
      HList items
        ((fix all (l : list pyval) : Forall P l :=
            match l with
            | [] => Forall_nil P
            | x :: l' => Forall_cons x (rec x) (all l')
            end) items)
  | PDict entries =>
      HDict entries
        ((fix all (l : list (string * pyval))
            : Forall (fun kv => P (snd kv)) l :=
            match l with
            | [] => Forall_nil _
            | kv :: l' => Forall_cons kv (rec (snd kv)) (all l')
            end) entries)
  | PDatetime iso => HDatetime iso
  end.

(** [type(v).__name__], as it appears in interpreter error messages. *)
Definition type_name (v : pyval) : string :=
  match v with
  | PNone => "NoneType"
  | PBool _ => "bool"
  | PInt _ => "int"
  | PFloat _ => "float"
  | PStr _ => "str"
  | PList _ => "list"
  | PDict _ => "dict"
  | PDatetime _ => "datetime.datetime"
  end.

(** [bool(v)]: the truth value tested by [if v] and [not v]. *)
Definition py_truthy (v : pyval) : bool :=
  match v with
  | PNone => false
  | PBool b => b
  | PInt n => negb (Z.eqb n 0)
  | PFloat r => negb (String.eqb r "0.0" || String.eqb r "-0.0")
  | PStr s => negb (String.eqb s EmptyString)
  | PList items => match items with [] => false | _ :: _ => true end
  | PDict entries => match entries with [] => false | _ :: _ => true end
  | PDatetime _ => true
  end.

(** [v == 'literal']: only a string equals a string literal. *)
Definition py_eq_str (v : pyval) (literal : string) : bool :=
  match v with
  | PStr s => String.eqb s literal
  | _ => false
  end.

(** [isinstance(v, str)]. *)
Definition isinstance_str (v : pyval) : bool :=
  match v with
  | PStr _ => true
  | _ => false
  end.

(** ** Dicts *)

(** [key in d] and [d.get(key)]: the entry of the key, if any. *)
Fixpoint dict_get (key : string) (d : pydict) : option pyval :=
  match d with
  | [] => None
  | (k, v) :: d' => if String.eqb k key then Some v else dict_get key d'
  end.

(** [d.get(key, default)]. *)
Definition dict_get_default (key : string) (default : pyval) (d : pydict)
  : pyval :=
  match dict_get key d with
  | Some v => v
  | None => default
  end.

(** [d[key] = v]: replaces the value of an existing key in place, appends
    a new key at the end. *)
Fixpoint dict_set (key : string) (v : pyval) (d : pydict) : pydict :=
  match d with
  | [] => [(key, v)]
  | (k, w) :: d' =>
      if String.eqb k key then (k, v) :: d' else (k, w) :: dict_set key v d'
  end.

Definition dict_keys (d : pydict) : list string := map fst d.

(** ** Exceptions and results *)

(** The classes of exception the handlers can meet, all subclasses of
    [Exception].  A [ClientError] of botocore carries its [response]. *)
Inductive exn_class : Type :=
| JSONDecodeError
| AttributeError
| TypeError
| KeyError
| IndexError
| ClientError (response : pyval)
| OtherException.

(** An exception instance: its class and its [str(e)]. *)
Record pyexn : Type := Exn { exn_class_of : exn_class; exn_str : string }.

(** The result of evaluating an expression: a value, or a raised
    exception. *)
Inductive outcome (A : Type) : Type :=
| Ok (a : A)
| Raise (e : pyexn).
Arguments Ok {A} a.
Arguments Raise {A} e.

(** ** Attribute and item access on values *)

Definition no_attribute (v : pyval) (attr : string) : pyexn :=
  Exn AttributeError
      ("'" ++ type_name v ++ "' object has no attribute '" ++ attr ++ "'").

Definition not_subscriptable (v : pyval) : pyexn :=
  Exn TypeError ("'" ++ type_name v ++ "' object is not subscriptable").

(** [v.get(key, default)]: only a dict has [get]. *)
Definition py_get (v : pyval) (key : string) (default : pyval)
  : outcome pyval :=
  match v with
  | PDict d => Ok (dict_get_default key default d)
  | _ => Raise (no_attribute v "get")
  end.

(** [len(v)]. *)
Definition py_len (v : pyval) : outcome Z :=
  match v with
  | PStr s => Ok (Z.of_nat (String.length s))
  | PList items => Ok (Z.of_nat (List.length items))
  | PDict d => Ok (Z.of_nat (List.length d))
  | _ => Raise (Exn TypeError
                    ("object of type '" ++ type_name v ++ "' has no len()"))
  end.

(** [v[key]] for a string [key]. *)
Definition py_getitem (v : pyval) (key : string) : outcome pyval :=
  match v with
  | PDict d =>
      match dict_get key d with
      | Some x => Ok x
      | None => Raise (Exn KeyError ("'" ++ key ++ "'"))
      end
  | PList _ =>
      Raise (Exn TypeError "list indices must be integers or slices, not str")
  | PStr _ => Raise (Exn TypeError "string indices must be integers, not 'str'")
  | _ => Raise (not_subscriptable v)
  end.

(** [v[0]]. *)
Definition py_first (v : pyval) : outcome pyval :=
  match v with
  | PList (x :: _) => Ok x
  | PList [] => Raise (Exn IndexError "list index out of range")
  | PStr (String c _) => Ok (PStr (String c EmptyString))
  | PStr EmptyString => Raise (Exn IndexError "string index out of range")
  | PDict _ => Raise (Exn KeyError "0")
  | _ => Raise (not_subscriptable v)
  end.

(** [v.isoformat()]: only a datetime has it. *)
Definition py_isoformat (v : pyval) : outcome pyval :=
  match v with
  | PDatetime iso => Ok (PStr iso)
  | _ => Raise (no_attribute v "isoformat")
  end.

(** ** The Python library the handlers call *)

(** The parts of the Python library whose results depend on text
    formats: [json.loads], the text that [json.dumps] writes for a
    serialisable value under a given [indent], and [str()] of a value
    that is not a string.  The handlers are embedded over any such
    library. *)
Class PyLib : Type := {
  json_loads : string -> outcome pyval;
  json_encode : option nat -> pyval -> string;
  str_object : pyval -> string
}.

Section Library.
Context `{PyLib}.

(** [str(v)], which is also what an f-string writes for [{v}]. *)
Definition py_str (v : pyval) : string :=
  match v with
  | PStr s => s
  | _ => str_object v
  end.

(** The values [json.dumps] serialises without a [default] hook. *)
Fixpoint json_serializable (v : pyval) : bool :=
  match v with
  | PDatetime _ => false
  | PList items => forallb json_serializable items
  | PDict entries =>
      (fix all (l : pydict) : bool :=
         match l with
         | [] => true
         | (_, x) :: l' => json_serializable x && all l'
         end) entries
  | _ => true
  end.

(** [default=str]: every value [json.dumps] cannot serialise is
    replaced by its [str()]. *)
Fixpoint json_default_str (v : pyval) : pyval :=
  match v with
  | PDatetime _ => PStr (py_str v)
  | PList items => PList (map json_default_str items)
  | PDict entries =>
      PDict ((fix each (l : pydict) : pydict :=
                match l with
                | [] => []
                | (k, x) :: l' => (k, json_default_str x) :: each l'
                end) entries)
  | _ => v
  end.

(** [json.dumps(obj, indent=indent)] when [default_str] is [false] and
    [json.dumps(obj, indent=indent, default=str)] when it is [true]. *)
Definition json_dumps (indent : option nat) (default_str : bool)
    (obj : pyval) : outcome string :=
  if default_str then Ok (json_encode indent (json_default_str obj))
  else if json_serializable obj then Ok (json_encode indent obj)
  else Raise (Exn TypeError
                  "Object of type datetime is not JSON serializable").

End Library.

(** ** The remote service and the invocation *)

(** A remote call issued through the boto3 GameLift client. *)
Inductive remote_call : Type :=
| ListFleets
| DescribeFleetAttributes (FleetIds : pyval).

(** The boto3 GameLift client: what each of its two operations answers
    (a response value, or a raised exception). *)
Record gamelift_client : Type := {
  list_fleets : outcome pyval;
  describe_fleet_attributes : pyval -> outcome pyval
}.

(** What surrounds an invocation: [os.environ] and [boto3.client]. *)
Record environment : Type := {
  environ : list (string * string);
  boto3_client : string -> outcome gamelift_client
}.

(** [os.environ.get(name, default)]. *)
Fixpoint os_environ_get (vars : list (string * string)) (name default : string)
  : string :=
  match vars with
  | [] => default
  | (k, v) :: vars' =>
      if String.eqb k name then v else os_environ_get vars' name default
  end.

(** The Lambda context; [aws_request_id] is [None] when the object has no
    such attribute. *)
Record context : Type := { aws_request_id : option string }.

(** [context.aws_request_id if hasattr(context, 'aws_request_id') else 'N/A'] *)
Definition request_id (ctx : context) : pyval :=
  match aws_request_id ctx with
  | Some id => PStr id
  | None => PStr "N/A"
  end.

(** The API Gateway response dictionary. *)
Record response : Type := {
  statusCode : Z;
  headers : list (string * string);
  body : string
}.

(** ** Computations *)

(** A handler computation threads the log of remote calls and ends in a
    value or in a raised exception. *)
Definition M (A : Type) : Type :=
  list remote_call -> outcome A * list remote_call.

Definition ret {A : Type} (a : A) : M A := fun log => (Ok a, log).

Definition raise {A : Type} (e : pyexn) : M A := fun log => (Raise e, log).

Definition bind {A B : Type} (m : M A) (k : A -> M B) : M B :=
  fun log =>
    match m log with
    | (Ok a, log') => k a log'
    | (Raise e, log') => (Raise e, log')
    end.

(** An expression without remote calls. *)
Definition lift {A : Type} (o : outcome A) : M A := fun log => (o, log).

(** [try: m  except Exception as e: handler e]; a handler re-raises the
    exceptions its [except] clauses do not name. *)
Definition try_except {A : Type} (m : M A) (handler : pyexn -> M A) : M A :=
  fun log =>
    match m log with
    | (Ok a, log') => (Ok a, log')
    | (Raise e, log') => handler e log'
    end.

Declare Scope py_scope.
Delimit Scope py_scope with py.
Notation "x <- m ;; k" := (bind m (fun x => k))
  (at level 61, m at next level, right associativity) : py_scope.
Local Open Scope py_scope.

(** [client.list_fleets()] *)
Definition call_list_fleets (client : gamelift_client) : M pyval :=
  fun log => (list_fleets client, (log ++ [ListFleets])%list).

(** [client.describe_fleet_attributes(FleetIds=ids)] *)
Definition call_describe_fleet_attributes (client : gamelift_client)
    (ids : pyval) : M pyval :=
  fun log => (describe_fleet_attributes client ids,
              (log ++ [DescribeFleetAttributes ids])%list).

(** The header block of every response but the health check's. *)
Definition cors_headers : list (string * string) :=
  [("Content-Type", "application/json");
   ("Access-Control-Allow-Origin", "*");
   ("Access-Control-Allow-Headers",
    "Content-Type,X-Amz-Date,Authorization,X-Api-Key");
   ("Access-Control-Allow-Methods", "GET,POST,OPTIONS")].

(** ** The Fleet Handler: gamelift_handler.py *)

Module gamelift_handler.
Section WithLibrary.
Context `{PyLib}.

(** [create_error_response(status_code, message, details, context)] *)
Definition create_error_response (status_code : Z) (message : string)
    (details : pyval) (ctx : context) : M response :=
  let error_body :=
    [("status", PStr "error");
     ("message", PStr message);
     ("timestamp", request_id ctx)] in
  let error_body :=
    if py_truthy details then dict_set "details" details error_body
    else error_body in
  text <- lift (json_dumps (Some 2%nat) false (PDict error_body)) ;;
  ret {| statusCode := status_code; headers := cors_headers; body := text |}.

(** [fleet.get(key).isoformat() if fleet.get(key) else None] *)
Definition isoformat_or_none (fleet : pyval) (key : string) : M pyval :=
  t <- lift (py_get fleet key PNone) ;;
  if py_truthy t then
    t' <- lift (py_get fleet key PNone) ;;
    lift (py_isoformat t')
  else ret PNone.

(** [convert_fleet_to_dict(fleet)] *)
Definition convert_fleet_to_dict (fleet : pyval) : M pyval :=
  FleetId <- lift (py_get fleet "FleetId" PNone) ;;
  FleetArn <- lift (py_get fleet "FleetArn" PNone) ;;
  FleetType <- lift (py_get fleet "FleetType" PNone) ;;
  EC2InstanceType <- lift (py_get fleet "EC2InstanceType" PNone) ;;
  BuildId <- lift (py_get fleet "BuildId" PNone) ;;
  Status <- lift (py_get fleet "Status" PNone) ;;
  Description <- lift (py_get fleet "Description" PNone) ;;
  Name <- lift (py_get fleet "Name" PNone) ;;
  CreationTime <- isoformat_or_none fleet "CreationTime" ;;
  TerminationTime <- isoformat_or_none fleet "TerminationTime" ;;
  ret (PDict [("FleetId", FleetId);
              ("FleetArn", FleetArn);
              ("FleetType", FleetType);
              ("EC2InstanceType", EC2InstanceType);
              ("BuildId", BuildId);
              ("Status", Status);
              ("Description", Description);
              ("Name", Name);
              ("CreationTime", CreationTime);
              ("TerminationTime", TerminationTime)]).

(** The two [except] clauses shared by both operations:
    [except ClientError as e] reads the provider's code and message out
    of [e.response], [except Exception as e] reports [str(e)]. *)
Definition on_remote_error (unexpected : string) (ctx : context)
    (e : pyexn) : M response :=
  match exn_class_of e with
  | ClientError e_response =>
      error <- lift (py_getitem e_response "Error") ;;
      error_code <- lift (py_getitem error "Code") ;;
      error' <- lift (py_getitem e_response "Error") ;;
      error_message <- lift (py_getitem error' "Message") ;;
      create_error_response 500 ("GameLift API error: " ++ py_str error_code)
                            error_message ctx
  | _ => create_error_response 500 unexpected (PStr (exn_str e)) ctx
  end.

(** [handle_list_fleets(gamelift_client, context)] *)
Definition handle_list_fleets (client : gamelift_client) (ctx : context)
  : M response :=
  try_except
    (response <- call_list_fleets client ;;
     fleet_ids <- lift (py_get response "FleetIds" (PList [])) ;;
     next_token <- lift (py_get response "NextToken" PNone) ;;
     fleet_count <- lift (py_len fleet_ids) ;;
     let response_body :=
       PDict [("status", PStr "success");
              ("operation", PStr "list_fleets");
              ("fleet_count", PInt fleet_count);
              ("fleets", fleet_ids);
              ("next_token", next_token);
              ("timestamp", request_id ctx)] in
     text <- lift (json_dumps (Some 2%nat) true response_body) ;;
     ret {| statusCode := 200; headers := cors_headers; body := text |})
    (on_remote_error "Unexpected error listing fleets" ctx).

(** [handle_describe_fleet(gamelift_client, fleet_id, context)] *)
Definition handle_describe_fleet (client : gamelift_client)
    (fleet_id : pyval) (ctx : context) : M response :=
  try_except
    (response <- call_describe_fleet_attributes client (PList [fleet_id]) ;;
     fleet_attributes <- lift (py_get response "FleetAttributes" (PList [])) ;;
     if negb (py_truthy fleet_attributes) then
       create_error_response 404 ("Fleet not found: " ++ py_str fleet_id)
                             PNone ctx
     else
       fleet <- lift (py_first fleet_attributes) ;;
       fleet_dict <- convert_fleet_to_dict fleet ;;
       let response_body :=
         PDict [("status", PStr "success");
                ("operation", PStr "describe_fleet");
                ("fleet", fleet_dict);
                ("timestamp", request_id ctx)] in
       text <- lift (json_dumps (Some 2%nat) true response_body) ;;
       ret {| statusCode := 200; headers := cors_headers; body := text |})
    (on_remote_error "Unexpected error describing fleet" ctx).

(** [lambda_handler(event, context)] *)
Definition lambda_handler (env : environment) (event : pydict)
    (ctx : context) : M response :=
  let environment := os_environ_get (environ env) "ENVIRONMENT" "unknown" in
  let project := os_environ_get (environ env) "PROJECT" "unknown" in
  let http_method := dict_get_default "httpMethod" (PStr "GET") event in
  let path := dict_get_default "path" (PStr "/") event in
  match boto3_client env "gamelift" with
  | Raise e =>
      create_error_response 500 "Failed to initialize GameLift client"
                            (PStr (exn_str e)) ctx
  | Ok gamelift_client =>
      let aws_region :=
        os_environ_get (environ env) "AWS_REGION" "us-east-1" in
      if py_eq_str http_method "GET" then
        handle_list_fleets gamelift_client ctx
      else if py_eq_str http_method "POST" then
        let body := dict_get_default "body" (PStr "{}") event in
        body_data <-
          try_except
            (match body with
             | PStr s => lift (json_loads s)
             | _ => ret body
             end)
            (fun e => match exn_class_of e with
                      | JSONDecodeError => ret (PDict [])
                      | _ => raise e
                      end) ;;
        action <- lift (py_get body_data "action" (PStr "list_fleets")) ;;
        if py_eq_str action "list_fleets" then
          handle_list_fleets gamelift_client ctx
        else if py_eq_str action "describe_fleet" then
          fleet_id <- lift (py_get body_data "fleet_id" PNone) ;;
          if negb (py_truthy fleet_id) then
            create_error_response 400 "Missing required parameter: fleet_id"
                                  PNone ctx
          else handle_describe_fleet gamelift_client fleet_id ctx
        else
          create_error_response 400 ("Unknown action: " ++ py_str action)
                                PNone ctx
      else
        create_error_response 405
          ("Method " ++ py_str http_method ++ " not supported") PNone ctx
  end.

End WithLibrary.
End gamelift_handler.

(** ** The Demo Handler: handler.py *)

Module handler.
Section WithLibrary.
Context `{PyLib}.

(** [lambda_handler(event, context)] *)
Definition lambda_handler (env : environment) (event : pydict)
    (ctx : context) : M response :=
  let environment := os_environ_get (environ env) "ENVIRONMENT" "unknown" in
  let project := os_environ_get (environ env) "PROJECT" "unknown" in
  let http_method := dict_get_default "httpMethod" (PStr "GET") event in
  let path := dict_get_default "path" (PStr "/") event in
  branch <-
    (if py_eq_str http_method "GET" then
       ret (PDict [("status", PStr "success");
                   ("message", PStr "Python Lambda is running!");
                   ("environment", PStr environment);
                   ("project", PStr project);
                   ("method", http_method);
                   ("path", path);
                   ("timestamp", request_id ctx)], 200%Z)
     else if py_eq_str http_method "POST" then
       let body := dict_get_default "body" (PStr "{}") event in
       body_data <-
         try_except
           (match body with
            | PStr s => lift (json_loads s)
            | _ => ret body
            end)
           (fun e => match exn_class_of e with
                     | JSONDecodeError => ret (PDict [])
                     | _ => raise e
                     end) ;;
       ret (PDict [("status", PStr "success");
                   ("message", PStr "POST request received");
                   ("environment", PStr environment);
                   ("project", PStr project);
                   ("received_data", body_data);
                   ("timestamp", request_id ctx)], 200%Z)
     else
       ret (PDict [("status", PStr "error");
                   ("message",
                    PStr ("Method " ++ py_str http_method ++ " not supported"));
                   ("supported_methods", PList [PStr "GET"; PStr "POST"])],
            405%Z)) ;;
  let '(response_body, status_code) := branch in
  text <- lift (json_dumps (Some 2%nat) false response_body) ;;
  ret {| statusCode := status_code; headers := cors_headers; body := text |}.

(** [health_check(event, context)] *)
Definition health_check (env : environment) (event : pydict)
    (ctx : context) : M response :=
  text <- lift (json_dumps None false
                  (PDict [("status", PStr "healthy");
                          ("service", PStr "python-lambda");
                          ("environment",
                           PStr (os_environ_get (environ env)
                                                "ENVIRONMENT" "unknown"))])) ;;
  ret {| statusCode := 200;
         headers := [("Content-Type", "application/json")];
         body := text |}.

End WithLibrary.
End handler.

(** ** An executable library instance

    [pyref.lib] instantiates [PyLib] so that the handlers run on concrete
    events.  It follows CPython on text made of code points below 256:
    [json.dumps] with [ensure_ascii] and the [indent] layout, [repr] with
    its choice of quote, and [json.loads] on the fragment of JSON without
    fractional or exponent numbers and without [\u] escapes (text outside
    that fragment is reported as undecodable). *)

Module pyref.
Local Open Scope string_scope.

Definition chr (n : nat) : string := String (ascii_of_nat n) EmptyString.
Definition dq : string := chr 34.
Definition backslash : string := chr 92.
Definition newline : string := chr 10.

Definition string_of_Z (n : Z) : string :=
  DecimalString.NilZero.string_of_int (Z.to_int n).

Definition hex_digit (n : nat) : string :=
  match n with
  | 10 => "a" | 11 => "b" | 12 => "c" | 13 => "d" | 14 => "e" | 15 => "f"
  | _ => string_of_Z (Z.of_nat n)
  end.

Definition hex2 (c : ascii) : string :=
  let n := nat_of_ascii c in
  hex_digit (Nat.div n 16) ++ hex_digit (Nat.modulo n 16).

Fixpoint spaces (n : nat) : string :=
  match n with
  | O => EmptyString
  | S n' => String " " (spaces n')
  end.

Fixpoint contains_char (c : ascii) (s : string) : bool :=
  match s with
  | EmptyString => false
  | String d s' => Ascii.eqb c d || contains_char c s'
  end.

(** *** json.dumps *)

Definition json_escape_char (c : ascii) : string :=
  let n := nat_of_ascii c in
  match n with
  | 34 => backslash ++ dq
  | 92 => backslash ++ backslash
  | 10 => backslash ++ "n"
  | 13 => backslash ++ "r"
  | 9 => backslash ++ "t"
  | 8 => backslash ++ "b"
  | 12 => backslash ++ "f"
  | _ => if (Nat.ltb n 32 || Nat.ltb 126 n)%bool
         then backslash ++ "u00" ++ hex2 c
         else String c EmptyString
  end.

Fixpoint json_escape (s : string) : string :=
  match s with
  | EmptyString => EmptyString
  | String c s' => json_escape_char c ++ json_escape s'
  end.

Definition json_quote (s : string) : string := dq ++ json_escape s ++ dq.

Definition json_float (r : string) : string :=
  if String.eqb r "nan" then "NaN"
  else if String.eqb r "inf" then "Infinity"
  else if String.eqb r "-inf" then "-Infinity"
  else r.

(** The line break before an item at nesting depth [level]. *)
Definition break (indent : option nat) (level : nat) : string :=
  match indent with
  | None => EmptyString
  | Some n => newline ++ spaces (n * level)
  end.

Definition item_separator (indent : option nat) (level : nat) : string :=
  match indent with
  | None => ", "
  | Some _ => "," ++ break indent level
  end.

Fixpoint encode_at (indent : option nat) (level : nat) (v : pyval) : string :=
  match v with
  | PNone => "null"
  | PBool true => "true"
  | PBool false => "false"
  | PInt n => string_of_Z n
  | PFloat r => json_float r
  | PStr s => json_quote s
  | PDatetime iso => json_quote iso
  | PList [] => "[]"
  | PList items =>
      "[" ++ break indent (S level)
      ++ (fix join (l : list pyval) : string :=
            match l with
            | [] => EmptyString
            | x :: l' =>
                encode_at indent (S level) x
                ++ match l' with
                   | [] => EmptyString
                   | _ :: _ => item_separator indent (S level) ++ join l'
                   end
            end) items
      ++ break indent level ++ "]"
  | PDict [] => "{}"
  | PDict entries =>
      "{" ++ break indent (S level)
      ++ (fix join (l : pydict) : string :=
            match l with
            | [] => EmptyString
            | (k, x) :: l' =>
                json_quote k ++ ": " ++ encode_at indent (S level) x
                ++ match l' with
                   | [] => EmptyString
                   | _ :: _ => item_separator indent (S level) ++ join l'
                   end
            end) entries
      ++ break indent level ++ "}"
  end.

Definition encode (indent : option nat) (v : pyval) : string :=
  encode_at indent 0 v.

(** *** str and repr *)

Definition repr_char (quote : ascii) (c : ascii) : string :=
  let n := nat_of_ascii c in
  if Ascii.eqb c quote then backslash ++ String c EmptyString
  else match n with
       | 92 => backslash ++ backslash
       | 10 => backslash ++ "n"
       | 13 => backslash ++ "r"
       | 9 => backslash ++ "t"
       | _ => if (Nat.ltb n 32 || (Nat.leb 127 n && Nat.leb n 160)
                  || Nat.eqb n 173)%bool
              then backslash ++ "x" ++ hex2 c
              else String c EmptyString
       end.

Definition repr_str (s : string) : string :=
  let quote :=
    if (contains_char "'" s && negb (contains_char (ascii_of_nat 34) s))%bool
    then ascii_of_nat 34 else "'"%char in
  String quote
    ((fix each (t : string) : string :=
        match t with
        | EmptyString => EmptyString
        | String c t' => repr_char quote c ++ each t'
        end) s)
  ++ String quote EmptyString.

(** [str] of a datetime is its [isoformat] with a space for the [T]. *)
Fixpoint datetime_str (iso : string) : string :=
  match iso with
  | EmptyString => EmptyString
  | String c iso' =>
      if Ascii.eqb c "T" then String " " iso' else String c (datetime_str iso')
  end.

Fixpoint repr (v : pyval) : string :=
  match v with
  | PNone => "None"
  | PBool true => "True"
  | PBool false => "False"
  | PInt n => string_of_Z n
  | PFloat r => r
  | PStr s => repr_str s
  | PDatetime iso => "datetime.datetime.fromisoformat(" ++ repr_str iso ++ ")"
  | PList items =>
      "["
      ++ (fix join (l : list pyval) : string :=
            match l with
            | [] => EmptyString
            | x :: l' =>
                repr x ++ match l' with
                          | [] => EmptyString
                          | _ :: _ => ", " ++ join l'
                          end
            end) items
      ++ "]"
  | PDict entries =>
      "{"
      ++ (fix join (l : pydict) : string :=
            match l with
            | [] => EmptyString
            | (k, x) :: l' =>
                repr_str k ++ ": " ++ repr x
                ++ match l' with
                   | [] => EmptyString
                   | _ :: _ => ", " ++ join l'
                   end
            end) entries
      ++ "}"
  end.

Definition str_of (v : pyval) : string :=
  match v with
  | PStr s => s
  | PDatetime iso => datetime_str iso
  | _ => repr v
  end.

(** *** json.loads *)

Definition is_ws (c : ascii) : bool :=
  match nat_of_ascii c with
  | 32 | 9 | 10 | 13 => true
  | _ => false
  end.

Definition is_digit (c : ascii) : bool :=
  let n := nat_of_ascii c in (Nat.leb 48 n && Nat.leb n 57)%bool.

Fixpoint skip_ws (s : string) : string :=
  match s with
  | String c s' => if is_ws c then skip_ws s' else s
  | EmptyString => s
  end.

(** The character written by the escape [\c]. *)
Definition unescape (c : ascii) : option ascii :=
  match nat_of_ascii c with
  | 34 => Some (ascii_of_nat 34)
  | 92 => Some (ascii_of_nat 92)
  | 47 => Some "/"%char
  | 98 => Some (ascii_of_nat 8)
  | 102 => Some (ascii_of_nat 12)
  | 110 => Some (ascii_of_nat 10)
  | 114 => Some (ascii_of_nat 13)
  | 116 => Some (ascii_of_nat 9)
  | _ => None
  end.

(** A string literal after its opening quote: the text and what follows
    the closing quote. *)
Fixpoint string_body (s : string) : option (string * string) :=
  match s with
  | EmptyString => None
  | String c s' =>
      match nat_of_ascii c with
      | 34 => Some (EmptyString, s')
      | 92 =>
          match s' with
          | String e s'' =>
              match unescape e, string_body s'' with
              | Some ch, Some (t, rest) => Some (String ch t, rest)
              | _, _ => None
              end
          | EmptyString => None
          end
      | n =>
          if Nat.ltb n 32 then None
          else match string_body s' with
               | Some (t, rest) => Some (String c t, rest)
               | None => None
               end
      end
  end.

Fixpoint take_digits (s : string) (acc : Z) : Z * string :=
  match s with
  | String c s' =>
      if is_digit c
      then take_digits s' (acc * 10 + Z.of_nat (nat_of_ascii c - 48))%Z
      else (acc, s)
  | EmptyString => (acc, s)
  end.

(** An integer literal: an optional sign, then [0] or a digit sequence
    that does not start with [0]. *)
Definition integer (s : string) : option (Z * string) :=
  let '(negative, s1) :=
    match s with
    | String "-" s' => (true, s')
    | _ => (false, s)
    end in
  match s1 with
  | String c s2 =>
      if is_digit c then
        let '(n, rest) :=
          if Ascii.eqb c "0" then (0%Z, s2) else take_digits s1 0%Z in
        Some (if negative then (- n)%Z else n, rest)
      else None
  | EmptyString => None
  end.

Fixpoint strip_prefix (p s : string) : option string :=
  match p, s with
  | EmptyString, _ => Some s
  | String a p', String b s' =>
      if Ascii.eqb a b then strip_prefix p' s' else None
  | String _ _, EmptyString => None
  end.

Definition literal (s : string) : option (pyval * string) :=
  match strip_prefix "null" s with
  | Some rest => Some (PNone, rest)
  | None =>
  match strip_prefix "true" s with
  | Some rest => Some (PBool true, rest)
  | None =>
  match strip_prefix "false" s with
  | Some rest => Some (PBool false, rest)
  | None =>
  match strip_prefix "NaN" s with
  | Some rest => Some (PFloat "nan", rest)
  | None =>
  match strip_prefix "Infinity" s with
  | Some rest => Some (PFloat "inf", rest)
  | None =>
  match strip_prefix "-Infinity" s with
  | Some rest => Some (PFloat "-inf", rest)
  | None =>
  match integer s with
  | Some (n, rest) => Some (PInt n, rest)
  | None => None
  end end end end end end end.

(** Recursive descent; [value] expects its input without leading white
    space, [members] stands at a key and [elements] at an item. *)
Fixpoint value (fuel : nat) (s : string) : option (pyval * string) :=
  match fuel with
  | O => None
  | S fuel' =>
      match s with
      | String "{" s' =>
          match skip_ws s' with
          | String "}" rest => Some (PDict [], rest)
          | s'' => members fuel' s'' []
          end
      | String "[" s' =>
          match skip_ws s' with
          | String "]" rest => Some (PList [], rest)
          | s'' => elements fuel' s'' []
          end
      | String c s' =>
          if Nat.eqb (nat_of_ascii c) 34 then
            match string_body s' with
            | Some (t, rest) => Some (PStr t, rest)
            | None => None
            end
          else literal s
      | EmptyString => None
      end
  end
with members (fuel : nat) (s : string) (acc : pydict)
  : option (pyval * string) :=
  match fuel with
  | O => None
  | S fuel' =>
      match s with
      | String c s' =>
          if Nat.eqb (nat_of_ascii c) 34 then
            match string_body s' with
            | Some (k, rest) =>
                match skip_ws rest with
                | String ":" rest' =>
                    match value fuel' (skip_ws rest') with
                    | Some (v, rest'') =>
                        let acc' := dict_set k v acc in
                        match skip_ws rest'' with
                        | String "," r => members fuel' (skip_ws r) acc'
                        | String "}" r => Some (PDict acc', r)
                        | _ => None
                        end
                    | None => None
                    end
                | _ => None
                end
            | None => None
            end
          else None
      | EmptyString => None
      end
  end
with elements (fuel : nat) (s : string) (acc : list pyval)
  : option (pyval * string) :=
  match fuel with
  | O => None
  | S fuel' =>
      match value fuel' s with
      | Some (v, rest) =>
          match skip_ws rest with
          | String "," r => elements fuel' (skip_ws r) (acc ++ [v])%list
          | String "]" r => Some (PList (acc ++ [v])%list, r)
          | _ => None
          end
      | None => None
      end
  end.

Definition loads (s : string) : outcome pyval :=
  match value (2 * String.length s + 2) (skip_ws s) with
  | Some (v, rest) =>
      match skip_ws rest with
      | EmptyString => Ok v
      | String _ _ => Raise (Exn JSONDecodeError "Extra data")
      end
  | None => Raise (Exn JSONDecodeError "Expecting value")
  end.

#[global] Instance lib : PyLib :=
  {| json_loads := loads; json_encode := encode; str_object := str_of |}.

End pyref.

(** ** Vocabulary of the statements *)

Section Vocabulary.
Context `{PyLib}.

(** The response whose body is the [indent=2] serialisation of [doc],
    under the CORS header block. *)
Definition envelope (status_code : Z) (doc : pyval) : response :=
  {| statusCode := status_code;
     headers := cors_headers;
     body := json_encode (Some 2%nat) doc |}.

(** [data] is what a POST branch binds to [body_data] when decoding
    raises nothing: the decoded text of a string body (["{}"] when the
    event has no [body] key), or a body that is not a string, as it is. *)
Definition body_decodes_to (event : pydict) (data : pyval) : Prop :=
  match dict_get_default "body" (PStr "{}") event with
  | PStr s => json_loads s = Ok data
  | structured => structured = data
  end.

(** The event has no [body] key, or its body is text that [json.loads]
    rejects with a [JSONDecodeError]. *)
Definition body_absent_or_undecodable (event : pydict) : Prop :=
  dict_get "body" event = None
  \/ exists s e, dict_get "body" event = Some (PStr s)
                 /\ json_loads s = Raise e
                 /\ exn_class_of e = JSONDecodeError.

End Vocabulary.

(** [part] occurs in [text]. *)
Definition contains (text part : string) : Prop :=
  exists before after, text = before ++ part ++ after.

(** [Optional[str]] arguments as values. *)
Definition optional_str (o : option string) : pyval :=
  match o with
  | Some s => PStr s
  | None => PNone
  end.

(** ** Fixtures: the events and surroundings of the scenarios *)

Module fixtures.
Import pyref.
Local Open Scope string_scope.

(** The context of the unit tests. *)
Definition mock_context : context :=
  {| aws_request_id := Some "test-request-id-12345" |}.

(** A GameLift service with two fleets that knows no fleet by id. *)
Definition two_fleets : gamelift_client :=
  {| list_fleets :=
       Ok (PDict [("FleetIds", PList [PStr "fleet-1"; PStr "fleet-2"])]);
     describe_fleet_attributes :=
       fun _ => Ok (PDict [("FleetAttributes", PList [])]) |}.

Definition test_environ : list (string * string) :=
  [("ENVIRONMENT", "test"); ("PROJECT", "test-project")].

(** Surroundings in which [boto3.client] returns a client. *)
Definition deployed : environment :=
  {| environ := test_environ; boto3_client := fun _ => Ok two_fleets |}.

(** Surroundings in which [boto3.client] raises, as it does when no
    region is configured. *)
Definition no_region : environment :=
  {| environ := test_environ;
     boto3_client :=
       fun _ => Raise (Exn OtherException "You must specify a region.") |}.

Definition production : environment :=
  {| environ := [("ENVIRONMENT", "production")];
     boto3_client := fun _ => Ok two_fleets |}.

Definition json_pair (key value : string) : string :=
  dq ++ key ++ dq ++ ":" ++ dq ++ value ++ dq.

(** [{"action":"unknown_action"}] *)
Definition unknown_action_text : string :=
  "{" ++ json_pair "action" "unknown_action" ++ "}".

(** [{"action":"describe_fleet"}] *)
Definition describe_without_id_text : string :=
  "{" ++ json_pair "action" "describe_fleet" ++ "}".

(** [{"action":"describe_fleet","fleet_id":"fleet-123"}] *)
Definition describe_fleet_123_text : string :=
  "{" ++ json_pair "action" "describe_fleet" ++ ","
      ++ json_pair "fleet_id" "fleet-123" ++ "}".

Definition post (text : string) : pydict :=
  [("httpMethod", PStr "POST"); ("body", PStr text)].

Definition get_event : pydict := [("httpMethod", PStr "GET")].

(** The DELETE event of the unit tests. *)
Definition delete_event : pydict :=
  [("httpMethod", PStr "DELETE"); ("path", PStr "/test"); ("body", PNone)].

(** A POST whose body is an explicit null. *)
Definition post_null : pydict :=
  [("httpMethod", PStr "POST"); ("body", PNone)].

(** A POST without a [body] key, and one whose body is not JSON. *)
Definition post_without_body : pydict := [("httpMethod", PStr "POST")].
Definition post_not_json : pydict := post "not json".

End fixtures.

(** ** Vocabulary of the behaviour properties *)

(** A computation that issues no remote call, and one that issues
    exactly [call], whether it ends in a value or in an exception. *)
Definition silent {A : Type} (m : M A) : Prop :=
  forall log, snd (m log) = log.

Definition issues_once {A : Type} (call : remote_call) (m : M A) : Prop :=
  forall log, snd (m log) = (log ++ [call])%list.

(** An exception whose handling by the [except] clauses of the two
    operations raises nothing: any exception other than a
    [ClientError], or a [ClientError] whose response holds
    [Error.Code] and a serialisable [Error.Message]. *)
Definition readable_error (e : pyexn) : Prop :=
  match exn_class_of e with
  | ClientError e_response =>
      exists error code message,
        py_getitem e_response "Error" = Ok error
        /\ py_getitem error "Code" = Ok code
        /\ py_getitem error "Message" = Ok message
        /\ json_serializable message = true
  | _ => True
  end.

(** Every exception the client raises is readable. *)
Definition readable_errors (client : gamelift_client) : Prop :=
  (forall e, list_fleets client = Raise e -> readable_error e)
  /\ (forall ids e,
        describe_fleet_attributes client ids = Raise e -> readable_error e).

(** A computation whose values satisfy [P] and whose exceptions are
    readable. *)
Definition guarded {A : Type} (P : A -> Prop) (m : M A) : Prop :=
  forall log,
    match fst (m log) with
    | Ok a => P a
    | Raise e => readable_error e
    end.

(** A computation that ends in a value satisfying [P], whatever the
    log. *)
Definition answers {A : Type} (P : A -> Prop) (m : M A) : Prop :=
  forall log, exists a, fst (m log) = Ok a /\ P a.

(** A computation whose values, when it ends in one, satisfy [P]. *)
Definition returns_only {A : Type} (P : A -> Prop) (m : M A) : Prop :=
  forall log a, fst (m log) = Ok a -> P a.

(** A response under the CORS header block with one of the status
    codes. *)
Definition cors_response (codes : list Z) (r : response) : Prop :=
  headers r = cors_headers /\ In (statusCode r) codes.

Section EventVocabulary.
Context `{PyLib}.

(** The [body] of the event is absent, or text that decodes to a
    mapping or is rejected with a [JSONDecodeError], or is itself a
    mapping: the POST branch of the Fleet Handler then binds
    [body_data] to a dict. *)
Definition mapping_body (event : pydict) : Prop :=
  match dict_get_default "body" (PStr "{}") event with
  | PStr s =>
      (exists d, json_loads s = Ok (PDict d))
      \/ (exists e, json_loads s = Raise e
                    /\ exn_class_of e = JSONDecodeError)
  | PDict _ => True
  | _ => False
  end.

(** The event is made of serialisable values as far as the Demo
    Handler echoes them: its [path], and its [body], decoded when it is
    text. *)
Definition echoable (event : pydict) : Prop :=
  json_serializable (dict_get_default "path" (PStr "/") event) = true
  /\ match dict_get_default "body" (PStr "{}") event with
     | PStr s =>
         (exists v, json_loads s = Ok v /\ json_serializable v = true)
         \/ (exists e, json_loads s = Raise e
                       /\ exn_class_of e = JSONDecodeError)
     | structured => json_serializable structured = true
     end.

End EventVocabulary.

(** Null for an absent value, the ISO text for a time. *)
Definition optional_time (o : option string) : pyval :=
  match o with
  | Some iso => PStr iso
  | None => PNone
  end.

(** ** Fixtures: remote services that fail or know a fleet *)

Module services.
Local Open Scope string_scope.

(** A service that rejects every call with a throttling error. *)
Definition throttling : pyexn :=
  Exn (ClientError
         (PDict [("Error", PDict [("Code", PStr "ThrottlingException");
                                  ("Message", PStr "Rate exceeded")])]))
      "An error occurred (ThrottlingException): Rate exceeded".

Definition throttled : gamelift_client :=
  {| list_fleets := Raise throttling;
     describe_fleet_attributes := fun _ => Raise throttling |}.

(** A service whose error responses carry a code but no message. *)
Definition terse : pyexn :=
  Exn (ClientError (PDict [("Error", PDict [("Code", PStr "Unknown")])]))
      "An error occurred (Unknown)".

Definition terse_service : gamelift_client :=
  {| list_fleets := Raise terse;
     describe_fleet_attributes := fun _ => Raise terse |}.

(** A service that cannot be reached. *)
Definition unreachable_error : pyexn :=
  Exn OtherException "Could not connect to the endpoint URL".

Definition unreachable : gamelift_client :=
  {| list_fleets := Raise unreachable_error;
     describe_fleet_attributes := fun _ => Raise unreachable_error |}.

Definition fleet_123 : pydict :=
  [("FleetId", PStr "fleet-123");
   ("FleetArn", PStr "arn:aws:gamelift:us-east-1::fleet/fleet-123");
   ("FleetType", PStr "ON_DEMAND");
   ("Status", PStr "ACTIVE");
   ("Name", PStr "demo");
   ("CreationTime", PDatetime "2024-01-01T00:00:00+00:00");
   ("ScriptId", PStr "script-1")].

(** A service that knows fleet-123. *)
Definition one_fleet : gamelift_client :=
  {| list_fleets := Ok (PDict [("FleetIds", PList [PStr "fleet-123"])]);
     describe_fleet_attributes :=
       fun _ => Ok (PDict [("FleetAttributes", PList [PDict fleet_123])]) |}.

(** A service whose fleet record carries its creation time as text. *)
Definition textual_time : gamelift_client :=
  {| list_fleets := Ok (PDict [("FleetIds", PList [PStr "fleet-123"])]);
     describe_fleet_attributes :=
       fun _ =>
         Ok (PDict [("FleetAttributes",
                     PList [PDict [("FleetId", PStr "fleet-123");
                                   ("CreationTime",
                                    PStr "2024-01-01T00:00:00")]])]) |}.

(** A service whose list of fleet ids holds a datetime. *)
Definition dated : gamelift_client :=
  {| list_fleets :=
       Ok (PDict [("FleetIds",
                   PList [PStr "fleet-1"; PDatetime "2024-01-01T00:00:00"])]);
     describe_fleet_attributes :=
       fun _ => Ok (PDict [("FleetAttributes", PList [])]) |}.

Definition deployed_with (client : gamelift_client) : environment :=
  {| environ := fixtures.test_environ; boto3_client := fun _ => Ok client |}.

End services.

(** ** Proof steps *)

(** Enters the POST branch of the Fleet Handler and binds [body_data]. *)
Ltac enter_post Hclient Hmethod Hdecode :=
  unfold gamelift_handler.lambda_handler;
  rewrite Hclient, Hmethod;
  cbn [py_eq_str String.eqb Ascii.eqb Bool.eqb];
  unfold bind at 1; rewrite Hdecode.

(** ** Basic facts *)

Lemma py_eq_str_refl (s : string) : py_eq_str (PStr s) s = true.
Proof. simpl. apply String.eqb_refl. Qed.

Lemma py_eq_str_neq (v : pyval) (s : string) :
  v <> PStr s -> py_eq_str v s = false.
Proof.
  intros Hne. destruct v; simpl; try reflexivity.
  destruct (String.eqb s0 s) eqn:E; [|reflexivity].
  apply String.eqb_eq in E. subst. contradiction.
Qed.

Lemma contains_suffix (prefix part : string) : contains (prefix ++ part) part.
Proof.
  exists prefix, EmptyString.
  induction prefix as [|c p IH]; simpl.
  - induction part as [|d q IHq]; simpl; [reflexivity|].
    f_equal. exact IHq.
  - f_equal. exact IH.
Qed.

Section BasicFacts.
Context `{PyLib}.

Lemma request_id_serializable (ctx : context) :
  json_serializable (request_id ctx) = true.
Proof. unfold request_id. destruct (aws_request_id ctx); reflexivity. Qed.

(** Without details the builder returns the three-key error envelope
    and performs no remote call. *)
Lemma create_error_response_plain (status_code : Z) (message : string)
    (ctx : context) (log : list remote_call) :
  gamelift_handler.create_error_response status_code message PNone ctx log
  = (Ok (envelope status_code
           (PDict [("status", PStr "error");
                   ("message", PStr message);
                   ("timestamp", request_id ctx)])), log).
Proof.
  unfold gamelift_handler.create_error_response, bind, lift, ret, json_dumps.
  simpl. rewrite request_id_serializable. reflexivity.
Qed.

(** When [boto3.client] raises, every request is answered by the
    builder with status 500 and [str(e)] as details, whatever the
    event. *)
Lemma client_initialisation_failure (env : environment) (event : pydict)
    (ctx : context) (e : pyexn) (log : list remote_call) :
  boto3_client env "gamelift" = Raise e ->
  gamelift_handler.lambda_handler env event ctx log
  = gamelift_handler.create_error_response
      500 "Failed to initialize GameLift client" (PStr (exn_str e)) ctx log.
Proof.
  intros Hclient. unfold gamelift_handler.lambda_handler.
  rewrite Hclient. reflexivity.
Qed.

End BasicFacts.

(** ** The error-response builder *)

(** C9.  The body built by the Fleet Handler's [create_error_response]
    has the key [details] exactly when the details argument is a
    non-empty string, and then holds that string; for [None] and for the
    empty string its keys are exactly status, message, timestamp.  In
    particular a [ClientError] whose provider message is empty is
    answered without a details field. *)
Theorem create_error_response_details_iff `{PyLib}
    (status_code : Z) (message : string) (details : option string)
    (ctx : context) (log : list remote_call) :
  (exists error_body : pydict,
      gamelift_handler.create_error_response
        status_code message (optional_str details) ctx log
      = (Ok (envelope status_code (PDict error_body)), log)
      /\ (In "details" (dict_keys error_body)
          <-> exists s, details = Some s /\ s <> EmptyString)
      /\ (forall s, details = Some s -> s <> EmptyString ->
            error_body = [("status", PStr "error");
                          ("message", PStr message);
                          ("timestamp", request_id ctx);
                          ("details", PStr s)])
      /\ (details = None \/ details = Some EmptyString ->
            dict_keys error_body = ["status"; "message"; "timestamp"]))
  /\ (forall unexpected code provider_text,
        gamelift_handler.on_remote_error unexpected ctx
          (Exn (ClientError
                  (PDict [("Error", PDict [("Code", PStr code);
                                           ("Message", PStr EmptyString)])]))
               provider_text) log
        = (Ok (envelope 500
                 (PDict [("status", PStr "error");
                         ("message", PStr ("GameLift API error: " ++ code));
                         ("timestamp", request_id ctx)])), log)).
Proof.
  split.
  - destruct details as [s|]; [destruct s as [|c s]|].
    + (* the empty string is falsy *)
      exists [("status", PStr "error"); ("message", PStr message);
              ("timestamp", request_id ctx)].
      split; [|split; [|split]].
      * unfold gamelift_handler.create_error_response, bind, lift, ret,
          json_dumps. simpl. rewrite request_id_serializable. reflexivity.
      * simpl. split.
        -- intros [E|[E|[E|[]]]]; discriminate E.
        -- intros [s [E Hne]]. inversion E. subst. contradiction.
      * intros s E Hne. inversion E. subst. contradiction.
      * intros _. reflexivity.
    + (* a non-empty string is stored under details *)
      exists [("status", PStr "error"); ("message", PStr message);
              ("timestamp", request_id ctx);
              ("details", PStr (String c s))].
      split; [|split; [|split]].
      * unfold gamelift_handler.create_error_response, bind, lift, ret,
          json_dumps. simpl. rewrite request_id_serializable. reflexivity.
      * simpl. split.
        -- intros _. exists (String c s). split; [reflexivity|discriminate].
        -- intros _. right. right. right. left. reflexivity.
      * intros s' E _. inversion E. reflexivity.
      * intros [E|E]; discriminate E.
    + (* None is falsy *)
      exists [("status", PStr "error"); ("message", PStr message);
              ("timestamp", request_id ctx)].
      split; [|split; [|split]].
      * apply create_error_response_plain.
      * simpl. split.
        -- intros [E|[E|[E|[]]]]; discriminate E.
        -- intros [s [E _]]. discriminate E.
      * intros s E. discriminate E.
      * intros _. reflexivity.
  - intros unexpected code provider_text.
    unfold gamelift_handler.on_remote_error,
      gamelift_handler.create_error_response, bind, lift, ret, json_dumps.
    simpl. rewrite request_id_serializable. reflexivity.
Qed.

(** ** The health check *)

(** C10.  [health_check] depends on neither of its arguments: under
    surroundings that agree on the ENVIRONMENT variable, any two
    event/context pairs get the same response, which has status 200, the
    Content-Type header alone, and the body
    [{status: healthy, service: python-lambda, environment: E}] where
    [E] is ENVIRONMENT, or [unknown] when it is unset; no remote call is
    made. *)
Theorem health_check_ignores_request `{PyLib}
    (env1 env2 : environment) (event1 event2 : pydict) (ctx1 ctx2 : context)
    (log : list remote_call) :
  os_environ_get (environ env1) "ENVIRONMENT" "unknown"
  = os_environ_get (environ env2) "ENVIRONMENT" "unknown" ->
  handler.health_check env1 event1 ctx1 log
  = handler.health_check env2 event2 ctx2 log
  /\ handler.health_check env1 event1 ctx1 log
     = (Ok {| statusCode := 200;
              headers := [("Content-Type", "application/json")];
              body :=
                json_encode None
                  (PDict [("status", PStr "healthy");
                          ("service", PStr "python-lambda");
                          ("environment",
                           PStr (os_environ_get (environ env1)
                                                "ENVIRONMENT" "unknown"))])
           |}, log).
Proof.
  intros Henv. unfold handler.health_check, bind, lift, ret, json_dumps.
  simpl. rewrite Henv. split; reflexivity.
Qed.

Lemma health_check_ignores_request_witness :
  os_environ_get (environ fixtures.production) "ENVIRONMENT" "unknown"
  = os_environ_get
      (environ {| environ := [("PROJECT", "demo");
                              ("ENVIRONMENT", "production")];
                  boto3_client := boto3_client fixtures.no_region |})
      "ENVIRONMENT" "unknown"
  /\ handler.health_check fixtures.production fixtures.get_event
       fixtures.mock_context []
     = (Ok {| statusCode := 200;
              headers := [("Content-Type", "application/json")];
              body :=
                json_encode None
                  (PDict [("status", PStr "healthy");
                          ("service", PStr "python-lambda");
                          ("environment", PStr "production")]) |}, []).
Proof.
  split; [reflexivity|].
  apply (health_check_ignores_request
           fixtures.production
           {| environ := [("PROJECT", "demo"); ("ENVIRONMENT", "production")];
              boto3_client := boto3_client fixtures.no_region |}
           fixtures.get_event fixtures.delete_event
           fixtures.mock_context {| aws_request_id := None |} []).
  reflexivity.
Defined.

(** ** Listing fleets *)

Section Serialisation.
Context `{PyLib}.

(** [default=str] changes nothing in a value that is serialisable
    as it is. *)
Lemma json_default_str_serializable (v : pyval) :
  json_serializable v = true -> json_default_str v = v.
Proof.
  induction v as [| | | | |items IH|entries IH|] using pyval_nested_ind;
    simpl; intros Hs; try reflexivity; try discriminate.
  - f_equal. induction IH as [|x items Hx _ IHitems]; simpl; [reflexivity|].
    simpl in Hs. apply andb_true_iff in Hs. destruct Hs as [Hx' Hitems].
    rewrite (Hx Hx'), (IHitems Hitems). reflexivity.
  - f_equal. induction IH as [|[k x] entries Hx _ IHentries]; simpl;
      [reflexivity|].
    apply andb_true_iff in Hs. destruct Hs as [Hx' Hentries].
    simpl in Hx. rewrite (Hx Hx'), (IHentries Hentries). reflexivity.
Qed.

Lemma strings_serializable (ids : list string) :
  forallb json_serializable (map PStr ids) = true.
Proof. induction ids as [|id ids IH]; simpl; [reflexivity|exact IH]. Qed.

Lemma optional_str_serializable (o : option string) :
  json_serializable (optional_str o) = true.
Proof. destruct o; reflexivity. Qed.

Lemma dict_get_default_optional (key : string) (d : pydict)
    (o : option string) :
  dict_get key d = option_map PStr o ->
  dict_get_default key PNone d = optional_str o.
Proof.
  intros E. unfold dict_get_default. rewrite E. destruct o; reflexivity.
Qed.

(** A list-fleets answer of the documented shape (fleet ids that are
    strings, an optional continuation token) becomes the 200 envelope. *)
Lemma handle_list_fleets_success (client : gamelift_client) (ctx : context)
    (answer : pydict) (ids : list string) (token : option string)
    (log : list remote_call) :
  list_fleets client = Ok (PDict answer) ->
  dict_get_default "FleetIds" (PList []) answer = PList (map PStr ids) ->
  dict_get "NextToken" answer = option_map PStr token ->
  gamelift_handler.handle_list_fleets client ctx log
  = (Ok (envelope 200
           (PDict [("status", PStr "success");
                   ("operation", PStr "list_fleets");
                   ("fleet_count", PInt (Z.of_nat (List.length ids)));
                   ("fleets", PList (map PStr ids));
                   ("next_token", optional_str token);
                   ("timestamp", request_id ctx)])),
     (log ++ [ListFleets])%list).
Proof.
  intros Hcall Hids Htoken.
  unfold gamelift_handler.handle_list_fleets, try_except, bind,
    call_list_fleets, lift, ret.
  rewrite Hcall. unfold py_get. rewrite Hids.
  rewrite (dict_get_default_optional _ _ _ Htoken).
  unfold py_len, json_dumps. rewrite length_map.
  rewrite json_default_str_serializable; [reflexivity|].
  simpl. rewrite strings_serializable, optional_str_serializable,
    request_id_serializable. reflexivity.
Qed.

End Serialisation.

(** C7.  A GET request whose list-fleets call succeeds is answered with
    status 200 and a body with status success, operation list_fleets,
    the fleet ids in the order the remote returned them, their number as
    fleet_count, and the continuation token, null when the remote
    supplied none; list-fleets is the only remote call. *)
Theorem get_lists_fleets `{PyLib}
    (env : environment) (client : gamelift_client) (event : pydict)
    (ctx : context) (answer : pydict) (ids : list string)
    (token : option string) (log : list remote_call) :
  boto3_client env "gamelift" = Ok client ->
  dict_get_default "httpMethod" (PStr "GET") event = PStr "GET" ->
  list_fleets client = Ok (PDict answer) ->
  dict_get_default "FleetIds" (PList []) answer = PList (map PStr ids) ->
  dict_get "NextToken" answer = option_map PStr token ->
  exists fleets next_token,
    gamelift_handler.lambda_handler env event ctx log
    = (Ok (envelope 200
             (PDict [("status", PStr "success");
                     ("operation", PStr "list_fleets");
                     ("fleet_count", PInt (Z.of_nat (List.length fleets)));
                     ("fleets", PList fleets);
                     ("next_token", next_token);
                     ("timestamp", request_id ctx)])),
       (log ++ [ListFleets])%list)
    /\ fleets = map PStr ids
    /\ (token = None -> next_token = PNone)
    /\ (forall t, token = Some t -> next_token = PStr t).
Proof.
  intros Hclient Hmethod Hcall Hids Htoken.
  exists (map PStr ids), (optional_str token).
  split; [|split; [reflexivity|split]].
  - unfold gamelift_handler.lambda_handler. rewrite Hclient, Hmethod.
    rewrite py_eq_str_refl, length_map.
    eapply handle_list_fleets_success; eassumption.
  - intros E. rewrite E. reflexivity.
  - intros t E. rewrite E. reflexivity.
Qed.

Lemma get_lists_fleets_witness :
  exists fleets next_token,
    gamelift_handler.lambda_handler fixtures.deployed fixtures.get_event
      fixtures.mock_context []
    = (Ok (envelope 200
             (PDict [("status", PStr "success");
                     ("operation", PStr "list_fleets");
                     ("fleet_count", PInt (Z.of_nat (List.length fleets)));
                     ("fleets", PList fleets);
                     ("next_token", next_token);
                     ("timestamp", PStr "test-request-id-12345")])),
       [ListFleets])
    /\ fleets = [PStr "fleet-1"; PStr "fleet-2"]
    /\ (@None string = None -> next_token = PNone)
    /\ (forall t, None = Some t -> next_token = PStr t).
Proof.
  apply (get_lists_fleets fixtures.deployed fixtures.two_fleets
           fixtures.get_event fixtures.mock_context
           [("FleetIds", PList [PStr "fleet-1"; PStr "fleet-2"])]
           ["fleet-1"; "fleet-2"] None []); reflexivity.
Defined.

(** ** POST requests to the Fleet Handler *)

Section PostDispatch.
Context `{PyLib}.

(** What the [try]/[except json.JSONDecodeError] of a POST branch binds
    to [body_data] when decoding raises nothing. *)
Lemma decode_body_ok (event : pydict) (data : pyval)
    (log : list remote_call) :
  body_decodes_to event data ->
  try_except
    (match dict_get_default "body" (PStr "{}") event with
     | PStr s => lift (json_loads s)
     | _ => ret (dict_get_default "body" (PStr "{}") event)
     end)
    (fun e => match exn_class_of e with
              | JSONDecodeError => ret (PDict [])
              | _ => raise e
              end) log
  = (Ok data, log).
Proof.
  unfold body_decodes_to, try_except, lift, ret.
  destruct (dict_get_default "body" (PStr "{}") event); intros E;
    rewrite ?E; subst; reflexivity.
Qed.

(** The same binding when the body is missing or is not JSON: the
    empty mapping. *)
Lemma decode_body_empty (event : pydict) (log : list remote_call) :
  json_loads "{}" = Ok (PDict []) ->
  body_absent_or_undecodable event ->
  try_except
    (match dict_get_default "body" (PStr "{}") event with
     | PStr s => lift (json_loads s)
     | _ => ret (dict_get_default "body" (PStr "{}") event)
     end)
    (fun e => match exn_class_of e with
              | JSONDecodeError => ret (PDict [])
              | _ => raise e
              end) log
  = (Ok (PDict []), log).
Proof.
  intros Hempty [Habsent | [s [e [Hbody [Hloads Hclass]]]]];
    unfold dict_get_default, try_except, lift, ret.
  - rewrite Habsent, Hempty. reflexivity.
  - rewrite Hbody, Hloads, Hclass. reflexivity.
Qed.

End PostDispatch.

Section PostActions.
Context `{PyLib}.

Lemma unknown_action_response (env : environment) (client : gamelift_client)
    (event : pydict) (ctx : context) (data : pydict) (action : pyval)
    (log : list remote_call) :
  boto3_client env "gamelift" = Ok client ->
  dict_get_default "httpMethod" (PStr "GET") event = PStr "POST" ->
  body_decodes_to event (PDict data) ->
  dict_get "action" data = Some action ->
  action <> PStr "list_fleets" ->
  action <> PStr "describe_fleet" ->
  gamelift_handler.lambda_handler env event ctx log
  = (Ok (envelope 400
           (PDict [("status", PStr "error");
                   ("message", PStr ("Unknown action: " ++ py_str action));
                   ("timestamp", request_id ctx)])), log).
Proof.
  intros Hclient Hmethod Hbody Haction Hlist Hdescribe.
  enter_post Hclient Hmethod (decode_body_ok _ _ log Hbody).
  unfold bind, lift, py_get, dict_get_default. rewrite Haction.
  rewrite (py_eq_str_neq _ _ Hlist), (py_eq_str_neq _ _ Hdescribe).
  apply create_error_response_plain.
Qed.

(** An empty record collection is answered with the 404 envelope. *)
Lemma handle_describe_fleet_not_found (client : gamelift_client)
    (fleet_id : pyval) (ctx : context) (answer : pydict)
    (log : list remote_call) :
  describe_fleet_attributes client (PList [fleet_id]) = Ok (PDict answer) ->
  dict_get_default "FleetAttributes" (PList []) answer = PList [] ->
  gamelift_handler.handle_describe_fleet client fleet_id ctx log
  = (Ok (envelope 404
           (PDict [("status", PStr "error");
                   ("message", PStr ("Fleet not found: " ++ py_str fleet_id));
                   ("timestamp", request_id ctx)])),
     (log ++ [DescribeFleetAttributes (PList [fleet_id])])%list).
Proof.
  intros Hcall Hempty.
  unfold gamelift_handler.handle_describe_fleet, try_except, bind,
    call_describe_fleet_attributes, lift, py_get.
  rewrite Hcall, Hempty. cbn [py_truthy negb].
  rewrite create_error_response_plain. reflexivity.
Qed.

End PostActions.

(** C3, as the code has it.  A POST request whose decoded body carries an
    [action] other than [list_fleets] and [describe_fleet] is answered,
    once the GameLift client is constructed, with status code 400 (the
    code of a client request error, as for a missing [fleet_id]), the
    message [Unknown action: <action>], and without any remote call;
    405 is kept for unsupported HTTP methods. *)
Theorem unknown_action_is_client_error `{PyLib}
    (env : environment) (client : gamelift_client) (event : pydict)
    (ctx : context) (data : pydict) (action : pyval)
    (log : list remote_call) :
  boto3_client env "gamelift" = Ok client ->
  dict_get_default "httpMethod" (PStr "GET") event = PStr "POST" ->
  body_decodes_to event (PDict data) ->
  dict_get "action" data = Some action ->
  action <> PStr "list_fleets" ->
  action <> PStr "describe_fleet" ->
  exists r,
    gamelift_handler.lambda_handler env event ctx log = (Ok r, log)
    /\ statusCode r = 400%Z
    /\ r = envelope 400
             (PDict [("status", PStr "error");
                     ("message", PStr ("Unknown action: " ++ py_str action));
                     ("timestamp", request_id ctx)]).
Proof.
  intros Hclient Hmethod Hbody Haction Hlist Hdescribe.
  eexists. split; [|split].
  - eapply unknown_action_response; eassumption.
  - reflexivity.
  - reflexivity.
Qed.

Lemma unknown_action_is_client_error_witness :
  exists r,
    gamelift_handler.lambda_handler fixtures.deployed
      [("httpMethod", PStr "POST");
       ("body", PDict [("action", PInt 7)])]
      fixtures.mock_context []
    = (Ok r, [])
    /\ statusCode r = 400%Z
    /\ r = envelope 400
             (PDict [("status", PStr "error");
                     ("message", PStr "Unknown action: 7");
                     ("timestamp", PStr "test-request-id-12345")]).
Proof.
  refine (unknown_action_is_client_error fixtures.deployed fixtures.two_fleets
            [("httpMethod", PStr "POST");
             ("body", PDict [("action", PInt 7)])]
            fixtures.mock_context [("action", PInt 7)] (PInt 7) []
            _ _ _ _ _ _);
    try reflexivity; discriminate.
Defined.

(** C3 as stated fails: with a constructed client, the POST body
    [{"action":"unknown_action"}] is answered with 400, not 405. *)
Lemma unknown_action_not_405 :
  body_decodes_to (fixtures.post fixtures.unknown_action_text)
                  (PDict [("action", PStr "unknown_action")])
  /\ exists r,
       gamelift_handler.lambda_handler fixtures.deployed
         (fixtures.post fixtures.unknown_action_text)
         fixtures.mock_context []
       = (Ok r, [])
       /\ statusCode r = 400%Z
       /\ statusCode r <> 405%Z.
Proof.
  split; [vm_compute; reflexivity|].
  eexists. split; [vm_compute; reflexivity|].
  split; [reflexivity|discriminate].
Qed.

(** C4, as the code has it.  Once the GameLift client is constructed, a
    POST whose body is the text [{"action":"unknown_action"}] is answered
    with status code 400 and the message
    [Unknown action: unknown_action]; in general the message of the
    unknown-action error is [Unknown action: ] followed by the action,
    so it names the offending value. *)
Theorem unknown_action_scenario `{PyLib}
    (env : environment) (client : gamelift_client) (ctx : context)
    (log : list remote_call) :
  boto3_client env "gamelift" = Ok client ->
  json_loads fixtures.unknown_action_text
  = Ok (PDict [("action", PStr "unknown_action")]) ->
  (gamelift_handler.lambda_handler env
     (fixtures.post fixtures.unknown_action_text) ctx log
   = (Ok (envelope 400
            (PDict [("status", PStr "error");
                    ("message", PStr "Unknown action: unknown_action");
                    ("timestamp", request_id ctx)])), log)
   /\ contains "Unknown action: unknown_action" "unknown_action")
  /\ (forall event data (action : string),
        dict_get_default "httpMethod" (PStr "GET") event = PStr "POST" ->
        body_decodes_to event (PDict data) ->
        dict_get "action" data = Some (PStr action) ->
        action <> "list_fleets" ->
        action <> "describe_fleet" ->
        exists message,
          gamelift_handler.lambda_handler env event ctx log
          = (Ok (envelope 400
                   (PDict [("status", PStr "error");
                           ("message", PStr message);
                           ("timestamp", request_id ctx)])), log)
          /\ contains message action).
Proof.
  intros Hclient Hloads. split; [split|].
  - apply (unknown_action_response env client _ ctx
             [("action", PStr "unknown_action")] (PStr "unknown_action") log);
      try assumption; try reflexivity; discriminate.
  - apply (contains_suffix "Unknown action: " "unknown_action").
  - intros event data action Hmethod Hbody Haction Hlist Hdescribe.
    exists ("Unknown action: " ++ action). split.
    + apply (unknown_action_response env client event ctx data (PStr action)
               log); try assumption; congruence.
    + apply contains_suffix.
Qed.

Lemma unknown_action_scenario_witness :
  boto3_client fixtures.deployed "gamelift" = Ok fixtures.two_fleets
  /\ json_loads fixtures.unknown_action_text
     = Ok (PDict [("action", PStr "unknown_action")])
  /\ gamelift_handler.lambda_handler fixtures.deployed
       (fixtures.post fixtures.unknown_action_text) fixtures.mock_context []
     = (Ok (envelope 400
              (PDict [("status", PStr "error");
                      ("message", PStr "Unknown action: unknown_action");
                      ("timestamp", PStr "test-request-id-12345")])), []).
Proof.
  split; [reflexivity|]. split; [vm_compute; reflexivity|].
  refine (proj1 (proj1 (unknown_action_scenario fixtures.deployed
                          fixtures.two_fleets fixtures.mock_context [] _ _)));
    [reflexivity | vm_compute; reflexivity].
Defined.

(** C4 as stated fails where [boto3.client] raises: the same request is
    answered with the 500 envelope of the failed initialisation, whose
    message does not mention the action. *)
Lemma unknown_action_without_client :
  gamelift_handler.lambda_handler fixtures.no_region
    (fixtures.post fixtures.unknown_action_text) fixtures.mock_context []
  = (Ok (envelope 500
           (PDict [("status", PStr "error");
                   ("message", PStr "Failed to initialize GameLift client");
                   ("timestamp", PStr "test-request-id-12345");
                   ("details", PStr "You must specify a region.")])), [])
  /\ 500%Z <> 400%Z.
Proof. split; [reflexivity|discriminate]. Qed.

(** ** Describing a fleet *)

(** C5, as the code has it.  Once the GameLift client is constructed, a
    POST request with action [describe_fleet] whose body carries no
    [fleet_id] is answered with status 400 and the message
    [Missing required parameter: fleet_id], and the log of remote calls
    is left as it was: neither operation of the client is invoked. *)
Theorem describe_fleet_requires_id `{PyLib}
    (env : environment) (client : gamelift_client) (event : pydict)
    (ctx : context) (data : pydict) (log : list remote_call) :
  boto3_client env "gamelift" = Ok client ->
  dict_get_default "httpMethod" (PStr "GET") event = PStr "POST" ->
  body_decodes_to event (PDict data) ->
  dict_get "action" data = Some (PStr "describe_fleet") ->
  dict_get "fleet_id" data = None ->
  gamelift_handler.lambda_handler env event ctx log
  = (Ok (envelope 400
           (PDict [("status", PStr "error");
                   ("message", PStr "Missing required parameter: fleet_id");
                   ("timestamp", request_id ctx)])), log).
Proof.
  intros Hclient Hmethod Hbody Haction Hid.
  enter_post Hclient Hmethod (decode_body_ok _ _ log Hbody).
  unfold bind, lift, py_get, dict_get_default. rewrite Haction, Hid.
  cbn [py_eq_str String.eqb Ascii.eqb Bool.eqb py_truthy negb].
  apply create_error_response_plain.
Qed.

Lemma describe_fleet_requires_id_witness :
  body_decodes_to (fixtures.post fixtures.describe_without_id_text)
                  (PDict [("action", PStr "describe_fleet")])
  /\ gamelift_handler.lambda_handler fixtures.deployed
       (fixtures.post fixtures.describe_without_id_text)
       fixtures.mock_context []
     = (Ok (envelope 400
              (PDict [("status", PStr "error");
                      ("message",
                       PStr "Missing required parameter: fleet_id");
                      ("timestamp", PStr "test-request-id-12345")])), []).
Proof.
  split; [vm_compute; reflexivity|].
  refine (describe_fleet_requires_id fixtures.deployed fixtures.two_fleets
            (fixtures.post fixtures.describe_without_id_text)
            fixtures.mock_context [("action", PStr "describe_fleet")] []
            _ _ _ _ _);
    reflexivity.
Defined.

(** C5 as stated fails where [boto3.client] raises: the request without
    [fleet_id] is answered with 500, the client initialisation being
    tried before the request is looked at. *)
Lemma describe_without_id_without_client :
  body_decodes_to (fixtures.post fixtures.describe_without_id_text)
                  (PDict [("action", PStr "describe_fleet")])
  /\ gamelift_handler.lambda_handler fixtures.no_region
       (fixtures.post fixtures.describe_without_id_text)
       fixtures.mock_context []
     = (Ok (envelope 500
              (PDict [("status", PStr "error");
                      ("message",
                       PStr "Failed to initialize GameLift client");
                      ("timestamp", PStr "test-request-id-12345");
                      ("details", PStr "You must specify a region.")])), [])
  /\ 500%Z <> 400%Z.
Proof.
  split; [vm_compute; reflexivity|]. split; [reflexivity|discriminate].
Qed.

(** C6.  A describe_fleet request whose describe-fleet-attributes call
    succeeds with an empty record collection is answered with status
    404, status [error] and the message [Fleet not found: <fleet id>],
    which contains the requested id; the remote was called once, with
    that single id. *)
Theorem describe_fleet_not_found `{PyLib}
    (env : environment) (client : gamelift_client) (event : pydict)
    (ctx : context) (data : pydict) (fleet_id : string) (answer : pydict)
    (log : list remote_call) :
  boto3_client env "gamelift" = Ok client ->
  dict_get_default "httpMethod" (PStr "GET") event = PStr "POST" ->
  body_decodes_to event (PDict data) ->
  dict_get "action" data = Some (PStr "describe_fleet") ->
  dict_get "fleet_id" data = Some (PStr fleet_id) ->
  fleet_id <> EmptyString ->
  describe_fleet_attributes client (PList [PStr fleet_id])
  = Ok (PDict answer) ->
  dict_get_default "FleetAttributes" (PList []) answer = PList [] ->
  exists message,
    gamelift_handler.lambda_handler env event ctx log
    = (Ok (envelope 404
             (PDict [("status", PStr "error");
                     ("message", PStr message);
                     ("timestamp", request_id ctx)])),
       (log ++ [DescribeFleetAttributes (PList [PStr fleet_id])])%list)
    /\ message = "Fleet not found: " ++ fleet_id
    /\ contains message fleet_id.
Proof.
  intros Hclient Hmethod Hbody Haction Hid Hne Hcall Hempty.
  exists ("Fleet not found: " ++ fleet_id).
  split; [|split; [reflexivity|apply contains_suffix]].
  enter_post Hclient Hmethod (decode_body_ok _ _ log Hbody).
  unfold bind, lift, py_get, dict_get_default. rewrite Haction, Hid.
  cbn [py_eq_str String.eqb Ascii.eqb Bool.eqb py_truthy].
  destruct (String.eqb fleet_id EmptyString) eqn:E.
  - apply String.eqb_eq in E. contradiction.
  - cbn [negb].
    apply (handle_describe_fleet_not_found client (PStr fleet_id) ctx answer
             log Hcall Hempty).
Qed.

Lemma describe_fleet_not_found_witness :
  body_decodes_to (fixtures.post fixtures.describe_fleet_123_text)
                  (PDict [("action", PStr "describe_fleet");
                          ("fleet_id", PStr "fleet-123")])
  /\ exists message,
       gamelift_handler.lambda_handler fixtures.deployed
         (fixtures.post fixtures.describe_fleet_123_text)
         fixtures.mock_context []
       = (Ok (envelope 404
                (PDict [("status", PStr "error");
                        ("message", PStr message);
                        ("timestamp", PStr "test-request-id-12345")])),
          [DescribeFleetAttributes (PList [PStr "fleet-123"])])
       /\ message = "Fleet not found: fleet-123"
       /\ contains message "fleet-123".
Proof.
  split; [vm_compute; reflexivity|].
  refine (describe_fleet_not_found fixtures.deployed fixtures.two_fleets
            (fixtures.post fixtures.describe_fleet_123_text)
            fixtures.mock_context
            [("action", PStr "describe_fleet");
             ("fleet_id", PStr "fleet-123")]
            "fleet-123" [("FleetAttributes", PList [])] []
            _ _ _ _ _ _ _ _);
    try reflexivity; discriminate.
Defined.

(** ** Unsupported methods *)

(** C8, as the code has it.  For a request whose method is neither GET
    nor POST the Demo Handler answers 405 with a body of exactly the keys
    status ([error]), message (naming the method) and supported_methods
    ([GET], [POST]), hence without timestamp or details; the Fleet
    Handler, once its GameLift client is constructed, answers 405 with
    the builder's body: status [error], the same message, timestamp. *)
Theorem unsupported_method `{PyLib}
    (env : environment) (event : pydict) (ctx : context) (method : pyval)
    (log : list remote_call) :
  dict_get_default "httpMethod" (PStr "GET") event = method ->
  method <> PStr "GET" ->
  method <> PStr "POST" ->
  (exists doc,
      handler.lambda_handler env event ctx log
      = (Ok (envelope 405 (PDict doc)), log)
      /\ doc = [("status", PStr "error");
                ("message",
                 PStr ("Method " ++ py_str method ++ " not supported"));
                ("supported_methods", PList [PStr "GET"; PStr "POST"])]
      /\ ~ In "timestamp" (dict_keys doc)
      /\ ~ In "details" (dict_keys doc))
  /\ (forall client,
        boto3_client env "gamelift" = Ok client ->
        gamelift_handler.lambda_handler env event ctx log
        = (Ok (envelope 405
                 (PDict [("status", PStr "error");
                         ("message",
                          PStr ("Method " ++ py_str method
                                ++ " not supported"));
                         ("timestamp", request_id ctx)])), log)).
Proof.
  intros Hmethod Hget Hpost. split.
  - eexists. split; [|split; [reflexivity|]].
    + unfold handler.lambda_handler. rewrite Hmethod.
      rewrite (py_eq_str_neq _ _ Hget), (py_eq_str_neq _ _ Hpost).
      reflexivity.
    + simpl. split; intros [E|[E|[E|[]]]]; discriminate E.
  - intros client Hclient.
    unfold gamelift_handler.lambda_handler. rewrite Hclient, Hmethod.
    rewrite (py_eq_str_neq _ _ Hget), (py_eq_str_neq _ _ Hpost).
    apply create_error_response_plain.
Qed.

Lemma unsupported_method_witness :
  handler.lambda_handler fixtures.deployed fixtures.delete_event
    fixtures.mock_context []
  = (Ok (envelope 405
           (PDict [("status", PStr "error");
                   ("message", PStr "Method DELETE not supported");
                   ("supported_methods", PList [PStr "GET"; PStr "POST"])])),
     [])
  /\ gamelift_handler.lambda_handler fixtures.deployed fixtures.delete_event
       fixtures.mock_context []
     = (Ok (envelope 405
              (PDict [("status", PStr "error");
                      ("message", PStr "Method DELETE not supported");
                      ("timestamp", PStr "test-request-id-12345")])), []).
Proof.
  destruct (unsupported_method fixtures.deployed fixtures.delete_event
              fixtures.mock_context (PStr "DELETE") [])
    as [[doc [Hdemo [Hdoc _]]] Hfleet];
    [reflexivity | discriminate | discriminate |].
  split.
  - rewrite Hdemo, Hdoc. reflexivity.
  - apply (Hfleet fixtures.two_fleets). reflexivity.
Defined.

(** C8 as stated fails where [boto3.client] raises: the Fleet Handler
    answers the DELETE event with 500, the client initialisation being
    tried before the method is looked at. *)
Lemma delete_without_client :
  gamelift_handler.lambda_handler fixtures.no_region fixtures.delete_event
    fixtures.mock_context []
  = (Ok (envelope 500
           (PDict [("status", PStr "error");
                   ("message", PStr "Failed to initialize GameLift client");
                   ("timestamp", PStr "test-request-id-12345");
                   ("details", PStr "You must specify a region.")])), [])
  /\ 500%Z <> 405%Z.
Proof. split; [reflexivity|discriminate]. Qed.

(** ** POST bodies *)

(** C1, as the code has it.  For a POST request without a [body] key, or
    whose body is text that [json.loads] rejects, both handlers go on
    with the empty mapping: the Demo Handler answers 200 with
    [received_data] the empty mapping, and the Fleet Handler, once its
    client is constructed, does what it does for the default action
    [list_fleets].  A body that is not a string is not decoded: the Demo
    Handler echoes it as it is, an explicit null as null. *)
Theorem post_body_defaults_to_empty `{PyLib}
    (env : environment) (event : pydict) (ctx : context)
    (log : list remote_call) :
  json_loads "{}" = Ok (PDict []) ->
  dict_get_default "httpMethod" (PStr "GET") event = PStr "POST" ->
  (body_absent_or_undecodable event ->
   handler.lambda_handler env event ctx log
   = (Ok (envelope 200
            (PDict [("status", PStr "success");
                    ("message", PStr "POST request received");
                    ("environment",
                     PStr (os_environ_get (environ env)
                                          "ENVIRONMENT" "unknown"));
                    ("project",
                     PStr (os_environ_get (environ env) "PROJECT" "unknown"));
                    ("received_data", PDict []);
                    ("timestamp", request_id ctx)])), log)
   /\ (forall client,
         boto3_client env "gamelift" = Ok client ->
         gamelift_handler.lambda_handler env event ctx log
         = gamelift_handler.handle_list_fleets client ctx log))
  /\ (forall structured,
        dict_get "body" event = Some structured ->
        isinstance_str structured = false ->
        json_serializable structured = true ->
        handler.lambda_handler env event ctx log
        = (Ok (envelope 200
                 (PDict [("status", PStr "success");
                         ("message", PStr "POST request received");
                         ("environment",
                          PStr (os_environ_get (environ env)
                                               "ENVIRONMENT" "unknown"));
                         ("project",
                          PStr (os_environ_get (environ env)
                                               "PROJECT" "unknown"));
                         ("received_data", structured);
                         ("timestamp", request_id ctx)])), log)).
Proof.
  intros Hempty Hmethod. split.
  - intros Hbody. split.
    + unfold handler.lambda_handler. rewrite Hmethod.
      cbn [py_eq_str String.eqb Ascii.eqb Bool.eqb].
      unfold bind at 1. unfold bind at 1.
      rewrite (decode_body_empty event log Hempty Hbody).
      unfold bind, lift, ret, json_dumps. simpl.
      rewrite request_id_serializable. reflexivity.
    + intros client Hclient.
      enter_post Hclient Hmethod (decode_body_empty event log Hempty Hbody).
      reflexivity.
  - intros structured Hbody Hstr Hser.
    unfold handler.lambda_handler. rewrite Hmethod.
    cbn [py_eq_str String.eqb Ascii.eqb Bool.eqb].
    unfold dict_get_default. rewrite Hbody.
    unfold bind, try_except, lift, ret, json_dumps.
    destruct structured; try discriminate Hstr; try discriminate Hser;
      simpl in *; rewrite ?Hser, ?request_id_serializable; reflexivity.
Qed.

Lemma post_body_defaults_to_empty_witness :
  body_absent_or_undecodable fixtures.post_not_json
  /\ handler.lambda_handler fixtures.deployed fixtures.post_not_json
       fixtures.mock_context []
     = (Ok (envelope 200
              (PDict [("status", PStr "success");
                      ("message", PStr "POST request received");
                      ("environment", PStr "test");
                      ("project", PStr "test-project");
                      ("received_data", PDict []);
                      ("timestamp", PStr "test-request-id-12345")])), [])
  /\ gamelift_handler.lambda_handler fixtures.deployed fixtures.post_not_json
       fixtures.mock_context []
     = gamelift_handler.handle_list_fleets fixtures.two_fleets
         fixtures.mock_context []
  /\ handler.lambda_handler fixtures.deployed fixtures.post_null
       fixtures.mock_context []
     = (Ok (envelope 200
              (PDict [("status", PStr "success");
                      ("message", PStr "POST request received");
                      ("environment", PStr "test");
                      ("project", PStr "test-project");
                      ("received_data", PNone);
                      ("timestamp", PStr "test-request-id-12345")])), []).
Proof.
  assert (Hbody : body_absent_or_undecodable fixtures.post_not_json).
  { right. exists "not json", (Exn JSONDecodeError "Expecting value").
    repeat split. }
  split; [exact Hbody|].
  destruct (post_body_defaults_to_empty fixtures.deployed
              fixtures.post_not_json fixtures.mock_context [])
    as [Hundecodable _]; [reflexivity | reflexivity |].
  destruct (Hundecodable Hbody) as [Hdemo Hfleet].
  split; [exact Hdemo|]. split; [apply Hfleet; reflexivity|].
  destruct (post_body_defaults_to_empty fixtures.deployed
              fixtures.post_null fixtures.mock_context [])
    as [_ Hstructured]; [reflexivity | reflexivity |].
  apply (Hstructured PNone); reflexivity.
Defined.

(** C1 as stated fails on an explicit null body: the Demo Handler
    echoes null, which is not the answer it gives for the empty mapping,
    and the Fleet Handler raises instead of returning. *)
Lemma post_null_is_not_empty_mapping :
  (exists r,
      handler.lambda_handler fixtures.deployed fixtures.post_null
        fixtures.mock_context []
      = (Ok r, [])
      /\ r = envelope 200
               (PDict [("status", PStr "success");
                       ("message", PStr "POST request received");
                       ("environment", PStr "test");
                       ("project", PStr "test-project");
                       ("received_data", PNone);
                       ("timestamp", PStr "test-request-id-12345")])
      /\ r <> envelope 200
                (PDict [("status", PStr "success");
                        ("message", PStr "POST request received");
                        ("environment", PStr "test");
                        ("project", PStr "test-project");
                        ("received_data", PDict []);
                        ("timestamp", PStr "test-request-id-12345")]))
  /\ gamelift_handler.lambda_handler fixtures.deployed fixtures.post_null
       fixtures.mock_context []
     = (Raise (Exn AttributeError
                   "'NoneType' object has no attribute 'get'"), []).
Proof.
  split.
  - eexists. split; [reflexivity|]. split; [reflexivity|].
    intros E. apply (f_equal body) in E. vm_compute in E. discriminate E.
  - reflexivity.
Qed.

(** ** Exceptions that leave the Fleet Handler *)

(** C2 fails on the code.  For a POST event whose body is an explicit
    null (what API Gateway sends for a request without body), the Fleet
    Handler with a constructed client returns no response: the
    [AttributeError] of [body_data.get] on [None] is raised outside
    every [try] and leaves [lambda_handler]. *)
Theorem post_null_raises `{PyLib}
    (env : environment) (client : gamelift_client) (event : pydict)
    (ctx : context) (log : list remote_call) :
  boto3_client env "gamelift" = Ok client ->
  dict_get_default "httpMethod" (PStr "GET") event = PStr "POST" ->
  dict_get "body" event = Some PNone ->
  gamelift_handler.lambda_handler env event ctx log
  = (Raise (Exn AttributeError "'NoneType' object has no attribute 'get'"),
     log).
Proof.
  intros Hclient Hmethod Hbody.
  unfold gamelift_handler.lambda_handler. rewrite Hclient, Hmethod.
  cbn [py_eq_str String.eqb Ascii.eqb Bool.eqb].
  unfold dict_get_default. rewrite Hbody. reflexivity.
Qed.

Lemma post_null_raises_witness :
  gamelift_handler.lambda_handler fixtures.deployed fixtures.post_null
    fixtures.mock_context []
  = (Raise (Exn AttributeError "'NoneType' object has no attribute 'get'"),
     []).
Proof.
  apply (post_null_raises fixtures.deployed fixtures.two_fleets
           fixtures.post_null fixtures.mock_context []); reflexivity.
Defined.

(** ** Remote calls of an invocation *)

Section CallDiscipline.
Context `{PyLib}.

Lemma silent_ret {A : Type} (a : A) : silent (ret a).
Proof. intros log. reflexivity. Qed.

Lemma silent_raise {A : Type} (e : pyexn) : silent (@raise A e).
Proof. intros log. reflexivity. Qed.

Lemma silent_lift {A : Type} (o : outcome A) : silent (lift o).
Proof. intros log. reflexivity. Qed.

Lemma silent_bind {A B : Type} (m : M A) (k : A -> M B) :
  silent m -> (forall a, silent (k a)) -> silent (bind m k).
Proof.
  intros Hm Hk log. unfold bind. specialize (Hm log).
  destruct (m log) as [[a|e] log1]; simpl in Hm; subst log1.
  - apply Hk.
  - reflexivity.
Qed.

Lemma silent_try_except {A : Type} (m : M A) (handler : pyexn -> M A) :
  silent m -> (forall e, silent (handler e)) -> silent (try_except m handler).
Proof.
  intros Hm Hh log. unfold try_except. specialize (Hm log).
  destruct (m log) as [[a|e] log1]; simpl in Hm; subst log1.
  - reflexivity.
  - apply Hh.
Qed.

Lemma issues_once_bind {A B : Type} (call : remote_call) (m : M A)
    (k : A -> M B) :
  issues_once call m -> (forall a, silent (k a)) ->
  issues_once call (bind m k).
Proof.
  intros Hm Hk log. unfold bind. specialize (Hm log).
  destruct (m log) as [[a|e] log1]; simpl in Hm; subst log1.
  - apply Hk.
  - reflexivity.
Qed.

Lemma issues_once_try_except {A : Type} (call : remote_call) (m : M A)
    (handler : pyexn -> M A) :
  issues_once call m -> (forall e, silent (handler e)) ->
  issues_once call (try_except m handler).
Proof.
  intros Hm Hh log. unfold try_except. specialize (Hm log).
  destruct (m log) as [[a|e] log1]; simpl in Hm; subst log1.
  - reflexivity.
  - apply Hh.
Qed.

End CallDiscipline.

(** Decomposes a goal [silent m] along the shape of [m]. *)
Ltac silence :=
  repeat first
    [ apply silent_ret
    | apply silent_raise
    | apply silent_lift
    | apply silent_bind; [|intros ?]
    | apply silent_try_except; [|intros ?]
    | match goal with
      | |- silent (if ?b then _ else _) => destruct b
      | |- silent (match ?x with _ => _ end) => destruct x
      | |- silent (let _ := _ in _) => cbv zeta
      end ].

Section CallsOfTheHandlers.
Context `{PyLib}.

Lemma silent_create_error_response (status_code : Z) (message : string)
    (details : pyval) (ctx : context) :
  silent (gamelift_handler.create_error_response status_code message
            details ctx).
Proof. unfold gamelift_handler.create_error_response. silence. Qed.

Lemma silent_on_remote_error (unexpected : string) (ctx : context)
    (e : pyexn) :
  silent (gamelift_handler.on_remote_error unexpected ctx e).
Proof.
  unfold gamelift_handler.on_remote_error.
  destruct (exn_class_of e); try apply silent_create_error_response.
  silence.
Qed.

Lemma silent_convert_fleet_to_dict (fleet : pyval) :
  silent (gamelift_handler.convert_fleet_to_dict fleet).
Proof.
  unfold gamelift_handler.convert_fleet_to_dict,
    gamelift_handler.isoformat_or_none.
  silence.
Qed.

Lemma handle_list_fleets_issues_once (client : gamelift_client)
    (ctx : context) :
  issues_once ListFleets (gamelift_handler.handle_list_fleets client ctx).
Proof.
  unfold gamelift_handler.handle_list_fleets.
  apply issues_once_try_except; [|intros e; apply silent_on_remote_error].
  apply issues_once_bind; [intros log; reflexivity|].
  intros response. silence.
Qed.

Lemma handle_describe_fleet_issues_once (client : gamelift_client)
    (fleet_id : pyval) (ctx : context) :
  issues_once (DescribeFleetAttributes (PList [fleet_id]))
              (gamelift_handler.handle_describe_fleet client fleet_id ctx).
Proof.
  unfold gamelift_handler.handle_describe_fleet.
  apply issues_once_try_except; [|intros e; apply silent_on_remote_error].
  apply issues_once_bind; [intros log; reflexivity|].
  intros response. apply silent_bind; [apply silent_lift|].
  intros fleet_attributes.
  destruct (negb (py_truthy fleet_attributes)).
  - apply silent_create_error_response.
  - apply silent_bind; [apply silent_lift|]. intros fleet.
    apply silent_bind; [apply silent_convert_fleet_to_dict|]. intros d.
    silence.
Qed.

End CallsOfTheHandlers.

(** X1.  Whatever the surroundings, the event and the remote service
    do, and whether it returns or raises, an invocation of the Fleet
    Handler issues no remote call, or the one call list-fleets, or the
    one call describe-fleet-attributes with a single fleet id; an
    invocation of the Demo Handler or of the health check issues none. *)
Theorem at_most_one_remote_call `{PyLib}
    (env : environment) (event : pydict) (ctx : context)
    (log : list remote_call) :
  (snd (gamelift_handler.lambda_handler env event ctx log) = log
   \/ snd (gamelift_handler.lambda_handler env event ctx log)
      = (log ++ [ListFleets])%list
   \/ exists fleet_id,
        snd (gamelift_handler.lambda_handler env event ctx log)
        = (log ++ [DescribeFleetAttributes (PList [fleet_id])])%list)
  /\ snd (handler.lambda_handler env event ctx log) = log
  /\ snd (handler.health_check env event ctx log) = log.
Proof.
  split; [|split].
  - unfold gamelift_handler.lambda_handler.
    destruct (boto3_client env "gamelift") as [client|e];
      [|left; apply silent_create_error_response].
    destruct (py_eq_str _ "GET");
      [right; left; apply handle_list_fleets_issues_once|].
    destruct (py_eq_str _ "POST");
      [|left; apply silent_create_error_response].
    unfold bind.
    match goal with
    | |- context [try_except ?m ?h log] =>
        assert (Hdecode : silent (try_except m h)) by silence;
        specialize (Hdecode log);
        destruct (try_except m h log) as [[body_data|e] log1]
    end; simpl in Hdecode; subst log1; [|left; reflexivity].
    unfold lift.
    destruct (py_get body_data "action" (PStr "list_fleets")) as [action|e];
      [|left; reflexivity].
    destruct (py_eq_str action "list_fleets");
      [right; left; apply handle_list_fleets_issues_once|].
    destruct (py_eq_str action "describe_fleet");
      [|left; apply silent_create_error_response].
    destruct (py_get body_data "fleet_id" PNone) as [fleet_id|e];
      [|left; reflexivity].
    destruct (negb (py_truthy fleet_id));
      [left; apply silent_create_error_response|].
    right; right. exists fleet_id.
    apply handle_describe_fleet_issues_once.
  - assert (Hdemo : silent (handler.lambda_handler env event ctx)).
    { unfold handler.lambda_handler. silence. }
    apply Hdemo.
  - reflexivity.
Qed.

(** ** Responses of an invocation *)

Section ReturnedValues.

Lemma returns_only_ret {A : Type} (P : A -> Prop) (a : A) :
  P a -> returns_only P (ret a).
Proof. intros Ha log b E. simpl in E. inversion E. subst. exact Ha. Qed.

Lemma returns_only_bind {A B : Type} (P : B -> Prop) (m : M A)
    (k : A -> M B) :
  (forall a, returns_only P (k a)) -> returns_only P (bind m k).
Proof.
  intros Hk log b. unfold bind.
  destruct (m log) as [[a|e] log1]; [apply Hk|discriminate].
Qed.

Lemma returns_only_try_except {A : Type} (P : A -> Prop) (m : M A)
    (handler : pyexn -> M A) :
  returns_only P m -> (forall e, returns_only P (handler e)) ->
  returns_only P (try_except m handler).
Proof.
  intros Hm Hh log a. unfold try_except. specialize (Hm log).
  destruct (m log) as [[a'|e] log1]; [apply Hm|apply Hh].
Qed.

Lemma returns_only_weaken {A : Type} (P Q : A -> Prop) (m : M A) :
  (forall a, P a -> Q a) -> returns_only P m -> returns_only Q m.
Proof. intros HPQ Hm log a E. apply HPQ, (Hm log a E). Qed.

Lemma cors_response_among (codes codes' : list Z) (r : response) :
  incl codes codes' -> cors_response codes r -> cors_response codes' r.
Proof. intros Hincl [Hh Hc]. split; [exact Hh|apply Hincl, Hc]. Qed.

End ReturnedValues.

Section ReturnedResponses.
Context `{PyLib}.

Lemma create_error_response_returns_only (status_code : Z)
    (message : string) (details : pyval) (ctx : context) :
  returns_only (cors_response [status_code])
    (gamelift_handler.create_error_response status_code message details ctx).
Proof.
  unfold gamelift_handler.create_error_response.
  apply returns_only_bind. intros text. apply returns_only_ret.
  split; [reflexivity|left; reflexivity].
Qed.

Lemma on_remote_error_returns_only (unexpected : string) (ctx : context)
    (e : pyexn) :
  returns_only (cors_response [500%Z])
    (gamelift_handler.on_remote_error unexpected ctx e).
Proof.
  unfold gamelift_handler.on_remote_error.
  destruct (exn_class_of e); try apply create_error_response_returns_only.
  do 4 (apply returns_only_bind; intros ?).
  apply create_error_response_returns_only.
Qed.

Lemma handle_list_fleets_returns_only (client : gamelift_client)
    (ctx : context) :
  returns_only (cors_response [200; 500]%Z)
    (gamelift_handler.handle_list_fleets client ctx).
Proof.
  unfold gamelift_handler.handle_list_fleets.
  apply returns_only_try_except.
  - repeat (apply returns_only_bind; intros ?).
    apply returns_only_ret. split; [reflexivity|left; reflexivity].
  - intros e. eapply returns_only_weaken;
      [|apply on_remote_error_returns_only].
    intros r. apply cors_response_among.
    intros c [E|[]]. right; left; exact E.
Qed.

Lemma handle_describe_fleet_returns_only (client : gamelift_client)
    (fleet_id : pyval) (ctx : context) :
  returns_only (cors_response [200; 404; 500]%Z)
    (gamelift_handler.handle_describe_fleet client fleet_id ctx).
Proof.
  unfold gamelift_handler.handle_describe_fleet.
  apply returns_only_try_except.
  - apply returns_only_bind. intros response.
    apply returns_only_bind. intros fleet_attributes.
    destruct (negb (py_truthy fleet_attributes)).
    + eapply returns_only_weaken;
        [|apply create_error_response_returns_only].
      intros r. apply cors_response_among.
      intros c [E|[]]. right; left; exact E.
    + repeat (apply returns_only_bind; intros ?).
      apply returns_only_ret. split; [reflexivity|left; reflexivity].
  - intros e. eapply returns_only_weaken;
      [|apply on_remote_error_returns_only].
    intros r. apply cors_response_among.
    intros c [E|[]]. right; right; left; exact E.
Qed.

End ReturnedResponses.

(** X2.  Every response that the Fleet Handler returns carries the CORS
    header block and one of the status codes 200, 400, 404, 405, 500;
    every response that the Demo Handler returns carries the same
    header block and status 200 or 405. *)
Theorem returned_status_codes `{PyLib}
    (env : environment) (event : pydict) (ctx : context)
    (log : list remote_call) :
  (forall r log',
      gamelift_handler.lambda_handler env event ctx log = (Ok r, log') ->
      cors_response [200; 400; 404; 405; 500]%Z r)
  /\ (forall r log',
        handler.lambda_handler env event ctx log = (Ok r, log') ->
        cors_response [200; 405]%Z r).
Proof.
  split.
  - assert (Hall : returns_only (cors_response [200; 400; 404; 405; 500]%Z)
                     (gamelift_handler.lambda_handler env event ctx)).
    { unfold gamelift_handler.lambda_handler.
      assert (Hbuilder : forall code message details,
                 In code [200; 400; 404; 405; 500]%Z ->
                 returns_only (cors_response [200; 400; 404; 405; 500]%Z)
                   (gamelift_handler.create_error_response
                      code message details ctx)).
      { intros code message details Hin.
        eapply returns_only_weaken;
          [|apply create_error_response_returns_only].
        intros r. apply cors_response_among.
        intros c [E|[]]. subst. exact Hin. }
      destruct (boto3_client env "gamelift") as [client|e];
        [|apply Hbuilder; simpl; tauto].
      assert (Hlist : returns_only
                        (cors_response [200; 400; 404; 405; 500]%Z)
                        (gamelift_handler.handle_list_fleets client ctx)).
      { eapply returns_only_weaken;
          [|apply handle_list_fleets_returns_only].
        intros r. apply cors_response_among.
        intros c [E|[E|[]]]; subst; simpl; tauto. }
      destruct (py_eq_str _ "GET"); [exact Hlist|].
      destruct (py_eq_str _ "POST"); [|apply Hbuilder; simpl; tauto].
      apply returns_only_bind. intros body_data.
      apply returns_only_bind. intros action.
      destruct (py_eq_str action "list_fleets"); [exact Hlist|].
      destruct (py_eq_str action "describe_fleet");
        [|apply Hbuilder; simpl; tauto].
      apply returns_only_bind. intros fleet_id.
      destruct (negb (py_truthy fleet_id)); [apply Hbuilder; simpl; tauto|].
      eapply returns_only_weaken;
        [|apply handle_describe_fleet_returns_only].
      intros r. apply cors_response_among.
      intros c [E|[E|[E|[]]]]; subst; simpl; tauto. }
    intros r log' E. apply (Hall log r). rewrite E. reflexivity.
  - assert (Hall : returns_only (cors_response [200; 405]%Z)
                     (handler.lambda_handler env event ctx)).
    { unfold handler.lambda_handler.
      eapply (returns_only_weaken (fun r => cors_response [200; 405]%Z r)
                (cors_response [200; 405]%Z)); [tauto|].
      intros log0 r. unfold bind at 1.
      match goal with
      | |- context [match ?m log0 with _ => _ end] =>
          assert (Hbranch : returns_only
                              (fun b : pyval * Z => In (snd b) [200; 405]%Z)
                              m);
          [|specialize (Hbranch log0);
            destruct (m log0) as [[[response_body status_code]|e] log1]]
      end.
      + destruct (py_eq_str _ "GET");
          [apply returns_only_ret; simpl; tauto|].
        destruct (py_eq_str _ "POST");
          [|apply returns_only_ret; simpl; tauto].
        apply returns_only_bind. intros body_data.
        apply returns_only_ret. simpl. tauto.
      + specialize (Hbranch _ eq_refl). simpl in Hbranch.
        unfold bind, lift.
        destruct (json_dumps (Some 2%nat) false response_body);
          [|discriminate].
        simpl. intros E. inversion E. subst. split; [reflexivity|].
        exact Hbranch.
      + discriminate. }
    intros r log' E. apply (Hall log r). rewrite E. reflexivity.
Qed.

(** ** Requests that are always answered *)

Section Answering.

Lemma guarded_ret {A : Type} (P : A -> Prop) (a : A) :
  P a -> guarded P (ret a).
Proof. intros Ha log. exact Ha. Qed.

Lemma guarded_bind {A B : Type} (P : B -> Prop) (m : M A) (k : A -> M B) :
  guarded (fun _ => True) m -> (forall a, guarded P (k a)) ->
  guarded P (bind m k).
Proof.
  intros Hm Hk log. unfold bind. specialize (Hm log).
  destruct (m log) as [[a|e] log1]; simpl in *; [apply Hk|exact Hm].
Qed.

Lemma answers_guarded {A : Type} (P : A -> Prop) (m : M A) :
  answers P m -> guarded P m.
Proof. intros Hm log. destruct (Hm log) as [a [E Ha]]. rewrite E. exact Ha. Qed.

Lemma answers_bind {A B : Type} (Q : A -> Prop) (P : B -> Prop) (m : M A)
    (k : A -> M B) :
  answers Q m -> (forall a, Q a -> answers P (k a)) -> answers P (bind m k).
Proof.
  intros Hm Hk log. unfold bind. destruct (Hm log) as [a [E Ha]].
  destruct (m log) as [o log1]. simpl in E. subst o. apply (Hk a Ha).
Qed.

Lemma answers_try_except {A : Type} (P : A -> Prop) (m : M A)
    (handler : pyexn -> M A) :
  guarded P m -> (forall e, readable_error e -> answers P (handler e)) ->
  answers P (try_except m handler).
Proof.
  intros Hm Hh log. unfold try_except. specialize (Hm log).
  destruct (m log) as [[a|e] log1]; simpl in Hm.
  - exists a. split; [reflexivity|exact Hm].
  - apply (Hh e Hm).
Qed.

Lemma answers_weaken {A : Type} (P Q : A -> Prop) (m : M A) :
  (forall a, P a -> Q a) -> answers P m -> answers Q m.
Proof.
  intros HPQ Hm log. destruct (Hm log) as [a [E Ha]].
  exists a. split; [exact E|apply HPQ, Ha].
Qed.

(** The exceptions of attribute and item access are none of the
    client's. *)
Lemma guarded_py_get (v : pyval) (key : string) (default : pyval) :
  guarded (fun _ => True) (lift (py_get v key default)).
Proof. intros log. destruct v; exact I. Qed.

Lemma guarded_py_len (v : pyval) : guarded (fun _ => True) (lift (py_len v)).
Proof. intros log. destruct v; exact I. Qed.

Lemma guarded_py_first (v : pyval) :
  guarded (fun _ => True) (lift (py_first v)).
Proof. intros log. destruct v as [| | | |[|c s]|[|x l]| |]; exact I. Qed.

Lemma guarded_py_isoformat (v : pyval) :
  guarded (fun _ => True) (lift (py_isoformat v)).
Proof. intros log. destruct v; exact I. Qed.

Lemma py_eq_str_true (v : pyval) (s : string) :
  py_eq_str v s = true -> v = PStr s.
Proof.
  destruct v; simpl; try discriminate. intros E.
  apply String.eqb_eq in E. subst. reflexivity.
Qed.

End Answering.

Section AnsweringHandlers.
Context `{PyLib}.

Lemma guarded_json_dumps_default (indent : option nat) (v : pyval) :
  guarded (fun _ => True) (lift (json_dumps indent true v)).
Proof. intros log. exact I. Qed.

Lemma answers_create_error_response (status_code : Z) (message : string)
    (details : pyval) (ctx : context) :
  json_serializable details = true ->
  answers (cors_response [status_code])
    (gamelift_handler.create_error_response status_code message details ctx).
Proof.
  intros Hdetails log.
  unfold gamelift_handler.create_error_response, bind, lift, ret, json_dumps.
  destruct (py_truthy details); simpl;
    rewrite request_id_serializable, ?Hdetails; simpl;
    eexists; (split; [reflexivity|split; [reflexivity|left; reflexivity]]).
Qed.

Lemma answers_on_remote_error (unexpected : string) (ctx : context)
    (e : pyexn) :
  readable_error e ->
  answers (cors_response [500%Z])
    (gamelift_handler.on_remote_error unexpected ctx e).
Proof.
  unfold readable_error, gamelift_handler.on_remote_error.
  destruct (exn_class_of e) as [| | | | |e_response|];
    try (intros _; apply answers_create_error_response; reflexivity).
  intros [error [code [message [HError [HCode [HMessage Hser]]]]]] log.
  unfold bind, lift. rewrite HError, HCode, HMessage.
  apply answers_create_error_response. exact Hser.
Qed.

Lemma guarded_isoformat_or_none (fleet : pyval) (key : string) :
  guarded (fun _ => True) (gamelift_handler.isoformat_or_none fleet key).
Proof.
  unfold gamelift_handler.isoformat_or_none.
  apply guarded_bind; [apply guarded_py_get|]. intros t.
  destruct (py_truthy t); [|apply guarded_ret; exact I].
  apply guarded_bind; [apply guarded_py_get|]. intros t'.
  apply guarded_py_isoformat.
Qed.

Lemma guarded_convert_fleet_to_dict (fleet : pyval) :
  guarded (fun _ => True) (gamelift_handler.convert_fleet_to_dict fleet).
Proof.
  unfold gamelift_handler.convert_fleet_to_dict.
  do 8 (apply guarded_bind; [apply guarded_py_get|]; intros ?).
  do 2 (apply guarded_bind; [apply guarded_isoformat_or_none|]; intros ?).
  apply guarded_ret. exact I.
Qed.

(** List-fleets is answered with 200 or 500 whenever the errors of the
    remote call are readable. *)
Lemma handle_list_fleets_answers (client : gamelift_client) (ctx : context) :
  (forall e, list_fleets client = Raise e -> readable_error e) ->
  answers (cors_response [200; 500]%Z)
    (gamelift_handler.handle_list_fleets client ctx).
Proof.
  intros Hreadable. unfold gamelift_handler.handle_list_fleets.
  apply answers_try_except.
  - apply guarded_bind.
    { intros log. unfold call_list_fleets. simpl.
      destruct (list_fleets client) as [v|e] eqn:E;
        [exact I|apply Hreadable; reflexivity]. }
    intros response.
    do 2 (apply guarded_bind; [apply guarded_py_get|]; intros ?).
    apply guarded_bind; [apply guarded_py_len|]. intros fleet_count.
    apply guarded_bind; [apply guarded_json_dumps_default|]. intros text.
    apply guarded_ret. split; [reflexivity|left; reflexivity].
  - intros e He. eapply answers_weaken; [|apply answers_on_remote_error, He].
    intros r. apply cors_response_among.
    intros c [E|[]]. right; left; exact E.
Qed.

(** Describe-fleet is answered with 200, 404 or 500 whenever the errors
    of the remote call are readable. *)
Lemma handle_describe_fleet_answers (client : gamelift_client)
    (fleet_id : pyval) (ctx : context) :
  (forall ids e,
      describe_fleet_attributes client ids = Raise e -> readable_error e) ->
  answers (cors_response [200; 404; 500]%Z)
    (gamelift_handler.handle_describe_fleet client fleet_id ctx).
Proof.
  intros Hreadable. unfold gamelift_handler.handle_describe_fleet.
  apply answers_try_except.
  - apply guarded_bind.
    { intros log. unfold call_describe_fleet_attributes. simpl.
      destruct (describe_fleet_attributes client (PList [fleet_id]))
        as [v|e] eqn:E; [exact I|apply (Hreadable _ _ E)]. }
    intros response.
    apply guarded_bind; [apply guarded_py_get|]. intros fleet_attributes.
    destruct (negb (py_truthy fleet_attributes)).
    + apply answers_guarded. eapply answers_weaken;
        [|apply answers_create_error_response; reflexivity].
      intros r. apply cors_response_among.
      intros c [E|[]]. right; left; exact E.
    + apply guarded_bind; [apply guarded_py_first|]. intros fleet.
      apply guarded_bind; [apply guarded_convert_fleet_to_dict|].
      intros fleet_dict.
      apply guarded_bind; [apply guarded_json_dumps_default|]. intros text.
      apply guarded_ret. split; [reflexivity|left; reflexivity].
  - intros e He. eapply answers_weaken; [|apply answers_on_remote_error, He].
    intros r. apply cors_response_among.
    intros c [E|[]]. right; right; left; exact E.
Qed.

(** With a mapping body the POST branch binds [body_data] to a dict. *)
Lemma decode_mapping_body (event : pydict) :
  mapping_body event ->
  answers (fun data => exists d, data = PDict d)
    (try_except
       (match dict_get_default "body" (PStr "{}") event with
        | PStr s => lift (json_loads s)
        | _ => ret (dict_get_default "body" (PStr "{}") event)
        end)
       (fun e => match exn_class_of e with
                 | JSONDecodeError => ret (PDict [])
                 | _ => raise e
                 end)).
Proof.
  unfold mapping_body. intros Hbody log. unfold try_except, lift, ret.
  destruct (dict_get_default "body" (PStr "{}") event);
    try contradiction.
  - destruct Hbody as [[d E]|[e [E Hclass]]]; rewrite E; simpl.
    + exists (PDict d). split; [reflexivity|exists d; reflexivity].
    + rewrite Hclass. exists (PDict []).
      split; [reflexivity|exists []; reflexivity].
  - eexists. split; [reflexivity|eexists; reflexivity].
Qed.

End AnsweringHandlers.

(** X3.  The Fleet Handler answers, with one of its status codes and
    no exception, every request other than a POST whose body fails to
    be a mapping, provided the exceptions of the remote service are
    readable: a request whose method is not POST, and a POST whose body
    is absent, a mapping, or text that decodes to a mapping or that
    [json.loads] rejects. *)
Theorem fleet_handler_answers `{PyLib}
    (env : environment) (event : pydict) (ctx : context)
    (log : list remote_call) :
  (dict_get_default "httpMethod" (PStr "GET") event = PStr "POST" ->
   mapping_body event) ->
  (forall client,
      boto3_client env "gamelift" = Ok client -> readable_errors client) ->
  exists r log',
    gamelift_handler.lambda_handler env event ctx log = (Ok r, log')
    /\ cors_response [200; 400; 404; 405; 500]%Z r.
Proof.
  intros Hbody Hclient.
  assert (Hanswers : answers (cors_response [200; 400; 404; 405; 500]%Z)
                       (gamelift_handler.lambda_handler env event ctx)).
  { assert (Hbuilder : forall code message details,
               json_serializable details = true ->
               In code [200; 400; 404; 405; 500]%Z ->
               answers (cors_response [200; 400; 404; 405; 500]%Z)
                 (gamelift_handler.create_error_response
                    code message details ctx)).
    { intros code message details Hser Hin.
      eapply answers_weaken;
        [|apply answers_create_error_response, Hser].
      intros r. apply cors_response_among.
      intros c [E|[]]. subst. exact Hin. }
    unfold gamelift_handler.lambda_handler.
    destruct (boto3_client env "gamelift") as [client|e] eqn:Eclient;
      [|apply Hbuilder; [reflexivity|simpl; tauto]].
    destruct (Hclient client eq_refl) as [Hlist Hdescribe].
    assert (Hlisting : answers (cors_response [200; 400; 404; 405; 500]%Z)
                         (gamelift_handler.handle_list_fleets client ctx)).
    { eapply answers_weaken; [|apply handle_list_fleets_answers, Hlist].
      intros r. apply cors_response_among.
      intros c [E|[E|[]]]; subst; simpl; tauto. }
    destruct (py_eq_str _ "GET"); [exact Hlisting|].
    destruct (py_eq_str _ "POST") eqn:Epost;
      [|apply Hbuilder; [reflexivity|simpl; tauto]].
    apply py_eq_str_true in Epost.
    eapply answers_bind; [apply decode_mapping_body, Hbody, Epost|].
    intros body_data [d Hd]. subst body_data.
    intros log0. unfold bind at 1, lift, py_get.
    destruct (py_eq_str _ "list_fleets"); [apply Hlisting|].
    destruct (py_eq_str _ "describe_fleet");
      [|apply Hbuilder; [reflexivity|simpl; tauto]].
    unfold bind at 1.
    destruct (negb (py_truthy (dict_get_default "fleet_id" PNone d)));
      [apply Hbuilder; [reflexivity|simpl; tauto]|].
    eapply answers_weaken; [|apply handle_describe_fleet_answers, Hdescribe].
    intros r. apply cors_response_among.
    intros c [E|[E|[E|[]]]]; subst; simpl; tauto. }
  destruct (Hanswers log) as [r [E Hr]].
  exists r, (snd (gamelift_handler.lambda_handler env event ctx log)).
  split; [|exact Hr].
  rewrite <- E. apply surjective_pairing.
Qed.

Lemma fleet_handler_answers_witness :
  mapping_body (fixtures.post fixtures.describe_fleet_123_text)
  /\ readable_errors services.throttled
  /\ exists r log',
       gamelift_handler.lambda_handler
         (services.deployed_with services.throttled)
         (fixtures.post fixtures.describe_fleet_123_text)
         fixtures.mock_context []
       = (Ok r, log')
       /\ cors_response [200; 400; 404; 405; 500]%Z r.
Proof.
  assert (Hbody : mapping_body
                    (fixtures.post fixtures.describe_fleet_123_text)).
  { left. eexists. vm_compute. reflexivity. }
  assert (Hreadable : readable_error services.throttling).
  { exists (PDict [("Code", PStr "ThrottlingException");
                   ("Message", PStr "Rate exceeded")]),
      (PStr "ThrottlingException"), (PStr "Rate exceeded").
    repeat split. }
  assert (Herrors : readable_errors services.throttled).
  { split.
    - intros e E. inversion E. exact Hreadable.
    - intros ids e E. inversion E. exact Hreadable. }
  split; [exact Hbody|]. split; [exact Herrors|].
  apply (fleet_handler_answers (services.deployed_with services.throttled)
           (fixtures.post fixtures.describe_fleet_123_text)
           fixtures.mock_context []).
  - intros _. exact Hbody.
  - intros client E. inversion E. exact Herrors.
Defined.

(** X4.  The Demo Handler answers, with status 200 or 405, without an
    exception and without touching the log of remote calls, every event
    whose path and body are serialisable: a body that is absent, a
    serialisable value, or text that decodes to one or that
    [json.loads] rejects. *)
Theorem demo_handler_answers `{PyLib}
    (env : environment) (event : pydict) (ctx : context)
    (log : list remote_call) :
  echoable event ->
  exists r,
    handler.lambda_handler env event ctx log = (Ok r, log)
    /\ cors_response [200; 405]%Z r.
Proof.
  intros [Hpath Hbody]. unfold handler.lambda_handler.
  destruct (py_eq_str _ "GET") eqn:Eget.
  - apply py_eq_str_true in Eget. rewrite Eget.
    unfold bind, ret, lift, json_dumps. simpl.
    rewrite Hpath, request_id_serializable. simpl.
    eexists. split; [reflexivity|]. split; [reflexivity|simpl; tauto].
  - destruct (py_eq_str _ "POST").
    + assert (Hdecode :
                exists data,
                  try_except
                    (match dict_get_default "body" (PStr "{}") event with
                     | PStr s => lift (json_loads s)
                     | _ => ret (dict_get_default "body" (PStr "{}") event)
                     end)
                    (fun e => match exn_class_of e with
                              | JSONDecodeError => ret (PDict [])
                              | _ => raise e
                              end) log
                  = (Ok data, log)
                  /\ json_serializable data = true).
      { unfold try_except, lift, ret.
        destruct (dict_get_default "body" (PStr "{}") event) eqn:Ebody;
          try (eexists; split; [reflexivity|exact Hbody]).
        destruct Hbody as [[v [E Hv]]|[e [E Hclass]]]; rewrite E.
        - exists v. split; [reflexivity|exact Hv].
        - rewrite Hclass. exists (PDict []). split; reflexivity. }
      destruct Hdecode as [data [Hdecode Hdata]].
      unfold bind at 1. unfold bind at 1. rewrite Hdecode.
      unfold bind, ret, lift, json_dumps. simpl.
      rewrite Hdata, request_id_serializable. simpl.
      eexists. split; [reflexivity|]. split; [reflexivity|simpl; tauto].
    + unfold bind, ret, lift, json_dumps. simpl.
      eexists. split; [reflexivity|]. split; [reflexivity|simpl; tauto].
Qed.

Lemma demo_handler_answers_witness :
  echoable (fixtures.post fixtures.describe_fleet_123_text)
  /\ exists r,
       handler.lambda_handler fixtures.deployed
         (fixtures.post fixtures.describe_fleet_123_text)
         fixtures.mock_context []
       = (Ok r, [])
       /\ cors_response [200; 405]%Z r.
Proof.
  assert (Hecho : echoable (fixtures.post fixtures.describe_fleet_123_text)).
  { split; [reflexivity|]. left. eexists. vm_compute. split; reflexivity. }
  split; [exact Hecho|].
  apply (demo_handler_answers fixtures.deployed
           (fixtures.post fixtures.describe_fleet_123_text)
           fixtures.mock_context [] Hecho).
Defined.

(** ** Failures of the remote service *)

Section RemoteFailures.
Context `{PyLib}.

Lemma py_truthy_str (s : string) :
  py_truthy (PStr s) = negb (String.eqb s EmptyString).
Proof. reflexivity. Qed.

(** With a string as details the builder adds the details field unless
    the string is empty. *)
Lemma create_error_response_str (status_code : Z) (message details : string)
    (ctx : context) (log : list remote_call) :
  gamelift_handler.create_error_response status_code message (PStr details)
    ctx log
  = (Ok (envelope status_code
           (PDict ([("status", PStr "error");
                    ("message", PStr message);
                    ("timestamp", request_id ctx)]
                   ++ (if String.eqb details EmptyString then []
                       else [("details", PStr details)]))%list)), log).
Proof.
  unfold gamelift_handler.create_error_response, bind, lift, ret, json_dumps.
  rewrite py_truthy_str.
  destruct (String.eqb details EmptyString); simpl;
    rewrite request_id_serializable; reflexivity.
Qed.

End RemoteFailures.

(** X5.  When [boto3.client] raises, every request, whatever its method
    and body, is answered with status 500, the message
    [Failed to initialize GameLift client] and the text of the
    exception as details (no details field when that text is empty);
    no remote call is made. *)
Theorem client_initialisation_error `{PyLib}
    (env : environment) (event : pydict) (ctx : context) (e : pyexn)
    (log : list remote_call) :
  boto3_client env "gamelift" = Raise e ->
  gamelift_handler.lambda_handler env event ctx log
  = (Ok (envelope 500
           (PDict ([("status", PStr "error");
                    ("message", PStr "Failed to initialize GameLift client");
                    ("timestamp", request_id ctx)]
                   ++ (if String.eqb (exn_str e) EmptyString then []
                       else [("details", PStr (exn_str e))]))%list)), log).
Proof.
  intros Hclient. unfold gamelift_handler.lambda_handler.
  rewrite Hclient. apply create_error_response_str.
Qed.

Lemma client_initialisation_error_witness :
  gamelift_handler.lambda_handler fixtures.no_region fixtures.get_event
    {| aws_request_id := None |} []
  = (Ok (envelope 500
           (PDict [("status", PStr "error");
                   ("message", PStr "Failed to initialize GameLift client");
                   ("timestamp", PStr "N/A");
                   ("details", PStr "You must specify a region.")])), []).
Proof.
  refine (client_initialisation_error fixtures.no_region fixtures.get_event
            {| aws_request_id := None |}
            (Exn OtherException "You must specify a region.") [] _).
  reflexivity.
Defined.

(** X6.  When the remote call of either operation raises a
    [ClientError] whose response holds [Error.Code] and a non-empty
    string [Error.Message], the operation answers with status 500, the
    message [GameLift API error: <code>] and the provider's message as
    details. *)
Theorem provider_error_is_reported `{PyLib}
    (client : gamelift_client) (ctx : context) (fleet_id : pyval)
    (e_response error : pydict) (code : pyval) (message text : string)
    (log : list remote_call) :
  dict_get "Error" e_response = Some (PDict error) ->
  dict_get "Code" error = Some code ->
  dict_get "Message" error = Some (PStr message) ->
  message <> EmptyString ->
  let e := Exn (ClientError (PDict e_response)) text in
  let answer :=
    envelope 500
      (PDict [("status", PStr "error");
              ("message", PStr ("GameLift API error: " ++ py_str code));
              ("timestamp", request_id ctx);
              ("details", PStr message)]) in
  (list_fleets client = Raise e ->
   gamelift_handler.handle_list_fleets client ctx log
   = (Ok answer, (log ++ [ListFleets])%list))
  /\ (describe_fleet_attributes client (PList [fleet_id]) = Raise e ->
      gamelift_handler.handle_describe_fleet client fleet_id ctx log
      = (Ok answer,
         (log ++ [DescribeFleetAttributes (PList [fleet_id])])%list)).
Proof.
  intros HError HCode HMessage Hne e answer.
  assert (Hhandler : forall unexpected log',
             gamelift_handler.on_remote_error unexpected ctx e log'
             = (Ok answer, log')).
  { intros unexpected log'.
    unfold gamelift_handler.on_remote_error, e, bind, lift, py_getitem.
    simpl. rewrite HError, HCode, HMessage.
    rewrite create_error_response_str.
    destruct (String.eqb message EmptyString) eqn:E;
      [apply String.eqb_eq in E; contradiction|reflexivity]. }
  split; intros Hcall.
  - unfold gamelift_handler.handle_list_fleets, try_except, bind,
      call_list_fleets.
    rewrite Hcall. apply Hhandler.
  - unfold gamelift_handler.handle_describe_fleet, try_except, bind,
      call_describe_fleet_attributes.
    rewrite Hcall. apply Hhandler.
Qed.

Lemma provider_error_is_reported_witness :
  gamelift_handler.handle_list_fleets services.throttled
    fixtures.mock_context []
  = (Ok (envelope 500
           (PDict [("status", PStr "error");
                   ("message", PStr "GameLift API error: ThrottlingException");
                   ("timestamp", PStr "test-request-id-12345");
                   ("details", PStr "Rate exceeded")])), [ListFleets]).
Proof.
  refine (proj1 (provider_error_is_reported services.throttled
                   fixtures.mock_context (PStr "fleet-123")
                   [("Error", PDict [("Code", PStr "ThrottlingException");
                                     ("Message", PStr "Rate exceeded")])]
                   [("Code", PStr "ThrottlingException");
                    ("Message", PStr "Rate exceeded")]
                   (PStr "ThrottlingException") "Rate exceeded"
                   "An error occurred (ThrottlingException): Rate exceeded"
                   [] _ _ _ _) _);
    try reflexivity. discriminate.
Defined.

(** X7.  When the remote call of either operation raises an exception
    that is not a [ClientError], the operation answers with status 500,
    the message [Unexpected error listing fleets] (or
    [describing fleet]) and the text of the exception as details (no
    details field when that text is empty). *)
Theorem unexpected_error_is_reported `{PyLib}
    (client : gamelift_client) (ctx : context) (fleet_id : pyval)
    (e : pyexn) (log : list remote_call) :
  (forall e_response, exn_class_of e <> ClientError e_response) ->
  let answer (message : string) :=
    envelope 500
      (PDict ([("status", PStr "error");
               ("message", PStr message);
               ("timestamp", request_id ctx)]
              ++ (if String.eqb (exn_str e) EmptyString then []
                  else [("details", PStr (exn_str e))]))%list) in
  (list_fleets client = Raise e ->
   gamelift_handler.handle_list_fleets client ctx log
   = (Ok (answer "Unexpected error listing fleets"),
      (log ++ [ListFleets])%list))
  /\ (describe_fleet_attributes client (PList [fleet_id]) = Raise e ->
      gamelift_handler.handle_describe_fleet client fleet_id ctx log
      = (Ok (answer "Unexpected error describing fleet"),
         (log ++ [DescribeFleetAttributes (PList [fleet_id])])%list)).
Proof.
  intros Hclass answer.
  assert (Hhandler : forall unexpected log',
             gamelift_handler.on_remote_error unexpected ctx e log'
             = (Ok (answer unexpected), log')).
  { intros unexpected log'. unfold gamelift_handler.on_remote_error.
    destruct (exn_class_of e) as [| | | | |e_response|] eqn:E;
      try apply create_error_response_str.
    exfalso. apply (Hclass e_response). reflexivity. }
  split; intros Hcall.
  - unfold gamelift_handler.handle_list_fleets, try_except, bind,
      call_list_fleets.
    rewrite Hcall. apply Hhandler.
  - unfold gamelift_handler.handle_describe_fleet, try_except, bind,
      call_describe_fleet_attributes.
    rewrite Hcall. apply Hhandler.
Qed.

Lemma unexpected_error_is_reported_witness :
  gamelift_handler.handle_describe_fleet services.unreachable
    (PStr "fleet-123") fixtures.mock_context []
  = (Ok (envelope 500
           (PDict [("status", PStr "error");
                   ("message", PStr "Unexpected error describing fleet");
                   ("timestamp", PStr "test-request-id-12345");
                   ("details",
                    PStr "Could not connect to the endpoint URL")])),
     [DescribeFleetAttributes (PList [PStr "fleet-123"])]).
Proof.
  refine (proj2 (unexpected_error_is_reported services.unreachable
                   fixtures.mock_context (PStr "fleet-123")
                   services.unreachable_error [] _) _).
  - intros e_response. discriminate.
  - reflexivity.
Defined.

(** X8.  When the remote call of either operation raises a
    [ClientError] whose [Error] entry has a code but no [Message], the
    [except] clause itself raises [KeyError: 'Message'], and the
    exception leaves the operation after its one remote call. *)
Theorem provider_error_without_message_raises `{PyLib}
    (client : gamelift_client) (ctx : context) (fleet_id : pyval)
    (e_response error : pydict) (code : pyval) (text : string)
    (log : list remote_call) :
  dict_get "Error" e_response = Some (PDict error) ->
  dict_get "Code" error = Some code ->
  dict_get "Message" error = None ->
  let e := Exn (ClientError (PDict e_response)) text in
  (list_fleets client = Raise e ->
   gamelift_handler.handle_list_fleets client ctx log
   = (Raise (Exn KeyError "'Message'"), (log ++ [ListFleets])%list))
  /\ (describe_fleet_attributes client (PList [fleet_id]) = Raise e ->
      gamelift_handler.handle_describe_fleet client fleet_id ctx log
      = (Raise (Exn KeyError "'Message'"),
         (log ++ [DescribeFleetAttributes (PList [fleet_id])])%list)).
Proof.
  intros HError HCode HMessage e.
  assert (Hhandler : forall unexpected log',
             gamelift_handler.on_remote_error unexpected ctx e log'
             = (Raise (Exn KeyError "'Message'"), log')).
  { intros unexpected log'.
    unfold gamelift_handler.on_remote_error, e, bind, lift, py_getitem.
    simpl. rewrite HError, HCode, HMessage. reflexivity. }
  split; intros Hcall.
  - unfold gamelift_handler.handle_list_fleets, try_except, bind,
      call_list_fleets.
    rewrite Hcall. apply Hhandler.
  - unfold gamelift_handler.handle_describe_fleet, try_except, bind,
      call_describe_fleet_attributes.
    rewrite Hcall. apply Hhandler.
Qed.

Lemma provider_error_without_message_raises_witness :
  gamelift_handler.handle_list_fleets services.terse_service
    fixtures.mock_context []
  = (Raise (Exn KeyError "'Message'"), [ListFleets]).
Proof.
  refine (proj1 (provider_error_without_message_raises services.terse_service
                   fixtures.mock_context (PStr "fleet-123")
                   [("Error", PDict [("Code", PStr "Unknown")])]
                   [("Code", PStr "Unknown")] (PStr "Unknown")
                   "An error occurred (Unknown)" [] _ _ _) _);
    reflexivity.
Defined.

(** ** Fleet records *)

Section FleetRecords.
Context `{PyLib}.

Lemma json_default_str_request_id (ctx : context) :
  json_default_str (request_id ctx) = request_id ctx.
Proof. apply json_default_str_serializable, request_id_serializable. Qed.

Lemma json_default_str_optional_time (o : option string) :
  json_default_str (optional_time o) = optional_time o.
Proof. destruct o; reflexivity. Qed.

End FleetRecords.

(** X9.  When describe-fleet-attributes returns a non-empty record
    collection whose first record is a mapping with its two times
    absent or datetimes, describe-fleet answers 200 with operation
    [describe_fleet] and a [fleet] of exactly ten fields, in the order
    of the source: eight taken from the first record (null when the
    record lacks the key, its [str] when not serialisable) and the two
    times in ISO format (null when absent).  Other keys of the record
    and the other records are dropped. *)
Theorem describe_fleet_projects_first_record `{PyLib}
    (client : gamelift_client) (ctx : context) (fleet_id : pyval)
    (answer fleet : pydict) (others : list pyval)
    (created terminated : option string) (log : list remote_call) :
  describe_fleet_attributes client (PList [fleet_id]) = Ok (PDict answer) ->
  dict_get "FleetAttributes" answer = Some (PList (PDict fleet :: others)) ->
  dict_get "CreationTime" fleet = option_map PDatetime created ->
  dict_get "TerminationTime" fleet = option_map PDatetime terminated ->
  let field (key : string) :=
    (key, json_default_str (dict_get_default key PNone fleet)) in
  gamelift_handler.handle_describe_fleet client fleet_id ctx log
  = (Ok (envelope 200
           (PDict [("status", PStr "success");
                   ("operation", PStr "describe_fleet");
                   ("fleet",
                    PDict [field "FleetId";
                           field "FleetArn";
                           field "FleetType";
                           field "EC2InstanceType";
                           field "BuildId";
                           field "Status";
                           field "Description";
                           field "Name";
                           ("CreationTime", optional_time created);
                           ("TerminationTime", optional_time terminated)]);
                   ("timestamp", request_id ctx)])),
     (log ++ [DescribeFleetAttributes (PList [fleet_id])])%list).
Proof.
  intros Hcall Hrecords Hcreated Hterminated field.
  unfold gamelift_handler.handle_describe_fleet, try_except, bind,
    call_describe_fleet_attributes, lift, py_get.
  assert (Hfirst : dict_get_default "FleetAttributes" (PList []) answer
                   = PList (PDict fleet :: others)).
  { unfold dict_get_default. rewrite Hrecords. reflexivity. }
  rewrite Hcall, Hfirst.
  cbn [py_truthy negb py_first].
  unfold gamelift_handler.convert_fleet_to_dict,
    gamelift_handler.isoformat_or_none, bind, lift, ret, py_get.
  unfold field, dict_get_default. rewrite Hcreated, Hterminated.
  destruct created, terminated; simpl; unfold json_dumps, envelope; simpl;
    rewrite json_default_str_request_id; reflexivity.
Qed.

Lemma describe_fleet_projects_first_record_witness :
  gamelift_handler.handle_describe_fleet services.one_fleet
    (PStr "fleet-123") fixtures.mock_context []
  = (Ok (envelope 200
           (PDict [("status", PStr "success");
                   ("operation", PStr "describe_fleet");
                   ("fleet",
                    PDict [("FleetId", PStr "fleet-123");
                           ("FleetArn",
                            PStr "arn:aws:gamelift:us-east-1::fleet/fleet-123");
                           ("FleetType", PStr "ON_DEMAND");
                           ("EC2InstanceType", PNone);
                           ("BuildId", PNone);
                           ("Status", PStr "ACTIVE");
                           ("Description", PNone);
                           ("Name", PStr "demo");
                           ("CreationTime",
                            PStr "2024-01-01T00:00:00+00:00");
                           ("TerminationTime", PNone)]);
                   ("timestamp", PStr "test-request-id-12345")])),
     [DescribeFleetAttributes (PList [PStr "fleet-123"])]).
Proof.
  refine (describe_fleet_projects_first_record services.one_fleet
            fixtures.mock_context (PStr "fleet-123")
            [("FleetAttributes", PList [PDict services.fleet_123])]
            services.fleet_123 []
            (Some "2024-01-01T00:00:00+00:00") None [] _ _ _ _);
    reflexivity.
Defined.

(** X10.  When the first record carries under [CreationTime] a truthy
    value that is not a datetime (its timestamp as text, say), the
    [isoformat] call fails inside the [try] and describe-fleet answers
    500 [Unexpected error describing fleet] with the [AttributeError]
    text as details. *)
Theorem describe_fleet_rejects_textual_time `{PyLib}
    (client : gamelift_client) (ctx : context) (fleet_id : pyval)
    (answer fleet : pydict) (others : list pyval) (time : pyval)
    (log : list remote_call) :
  describe_fleet_attributes client (PList [fleet_id]) = Ok (PDict answer) ->
  dict_get "FleetAttributes" answer = Some (PList (PDict fleet :: others)) ->
  dict_get "CreationTime" fleet = Some time ->
  py_truthy time = true ->
  (forall iso, time <> PDatetime iso) ->
  gamelift_handler.handle_describe_fleet client fleet_id ctx log
  = (Ok (envelope 500
           (PDict [("status", PStr "error");
                   ("message", PStr "Unexpected error describing fleet");
                   ("timestamp", request_id ctx);
                   ("details",
                    PStr ("'" ++ type_name time
                          ++ "' object has no attribute 'isoformat'"))])),
     (log ++ [DescribeFleetAttributes (PList [fleet_id])])%list).
Proof.
  intros Hcall Hrecords Htime Htruthy Hnot.
  unfold gamelift_handler.handle_describe_fleet, try_except, bind,
    call_describe_fleet_attributes, lift, py_get.
  assert (Hfirst : dict_get_default "FleetAttributes" (PList []) answer
                   = PList (PDict fleet :: others)).
  { unfold dict_get_default. rewrite Hrecords. reflexivity. }
  rewrite Hcall, Hfirst.
  cbn [py_truthy negb py_first].
  unfold gamelift_handler.convert_fleet_to_dict,
    gamelift_handler.isoformat_or_none, bind, lift, ret, py_get.
  assert (Hcreated : dict_get_default "CreationTime" PNone fleet = time).
  { unfold dict_get_default. rewrite Htime. reflexivity. }
  rewrite Hcreated, Htruthy.
  destruct time; try discriminate Htruthy;
    try (exfalso; eapply Hnot; reflexivity);
    unfold gamelift_handler.on_remote_error; simpl;
    rewrite create_error_response_str; reflexivity.
Qed.

Lemma describe_fleet_rejects_textual_time_witness :
  gamelift_handler.handle_describe_fleet services.textual_time
    (PStr "fleet-123") fixtures.mock_context []
  = (Ok (envelope 500
           (PDict [("status", PStr "error");
                   ("message", PStr "Unexpected error describing fleet");
                   ("timestamp", PStr "test-request-id-12345");
                   ("details",
                    PStr "'str' object has no attribute 'isoformat'")])),
     [DescribeFleetAttributes (PList [PStr "fleet-123"])]).
Proof.
  refine (describe_fleet_rejects_textual_time services.textual_time
            fixtures.mock_context (PStr "fleet-123")
            [("FleetAttributes",
              PList [PDict [("FleetId", PStr "fleet-123");
                            ("CreationTime", PStr "2024-01-01T00:00:00")]])]
            [("FleetId", PStr "fleet-123");
             ("CreationTime", PStr "2024-01-01T00:00:00")]
            [] (PStr "2024-01-01T00:00:00") [] _ _ _ _ _);
    try reflexivity. intros iso. discriminate.
Defined.

(** ** Further POST requests *)

(** X11.  A describe_fleet request whose [fleet_id] is present but
    falsy (the empty string, null, zero, false, an empty list or
    mapping) is answered like one without [fleet_id]: status 400,
    [Missing required parameter: fleet_id], no remote call. *)
Theorem describe_fleet_rejects_falsy_id `{PyLib}
    (env : environment) (client : gamelift_client) (event : pydict)
    (ctx : context) (data : pydict) (fleet_id : pyval)
    (log : list remote_call) :
  boto3_client env "gamelift" = Ok client ->
  dict_get_default "httpMethod" (PStr "GET") event = PStr "POST" ->
  body_decodes_to event (PDict data) ->
  dict_get "action" data = Some (PStr "describe_fleet") ->
  dict_get "fleet_id" data = Some fleet_id ->
  py_truthy fleet_id = false ->
  gamelift_handler.lambda_handler env event ctx log
  = (Ok (envelope 400
           (PDict [("status", PStr "error");
                   ("message", PStr "Missing required parameter: fleet_id");
                   ("timestamp", request_id ctx)])), log).
Proof.
  intros Hclient Hmethod Hbody Haction Hid Hfalsy.
  enter_post Hclient Hmethod (decode_body_ok _ _ log Hbody).
  unfold bind, lift, py_get, dict_get_default. rewrite Haction, Hid.
  cbn [py_eq_str String.eqb Ascii.eqb Bool.eqb]. rewrite Hfalsy.
  apply create_error_response_plain.
Qed.

Lemma describe_fleet_rejects_falsy_id_witness :
  gamelift_handler.lambda_handler fixtures.deployed
    [("httpMethod", PStr "POST");
     ("body", PDict [("action", PStr "describe_fleet");
                     ("fleet_id", PStr EmptyString)])]
    fixtures.mock_context []
  = (Ok (envelope 400
           (PDict [("status", PStr "error");
                   ("message", PStr "Missing required parameter: fleet_id");
                   ("timestamp", PStr "test-request-id-12345")])), []).
Proof.
  refine (describe_fleet_rejects_falsy_id fixtures.deployed
            fixtures.two_fleets _ fixtures.mock_context
            [("action", PStr "describe_fleet");
             ("fleet_id", PStr EmptyString)]
            (PStr EmptyString) [] _ _ _ _ _ _);
    reflexivity.
Defined.

(** X12.  A POST request to the Fleet Handler (its client constructed)
    whose body is, or decodes to, anything but a mapping (null, a list,
    a string, a number, a boolean) makes [body_data.get] raise an
    [AttributeError] naming the type of the value, which leaves
    [lambda_handler] before any remote call. *)
Theorem post_non_mapping_raises `{PyLib}
    (env : environment) (client : gamelift_client) (event : pydict)
    (ctx : context) (data : pyval) (log : list remote_call) :
  boto3_client env "gamelift" = Ok client ->
  dict_get_default "httpMethod" (PStr "GET") event = PStr "POST" ->
  body_decodes_to event data ->
  (forall d, data <> PDict d) ->
  gamelift_handler.lambda_handler env event ctx log
  = (Raise (Exn AttributeError
                ("'" ++ type_name data ++ "' object has no attribute 'get'")),
     log).
Proof.
  intros Hclient Hmethod Hbody Hnot.
  enter_post Hclient Hmethod (decode_body_ok _ _ log Hbody).
  unfold bind, lift.
  destruct data; try reflexivity.
  exfalso. eapply Hnot. reflexivity.
Qed.

Lemma post_non_mapping_raises_witness :
  body_decodes_to (fixtures.post "[1, 2]") (PList [PInt 1; PInt 2])
  /\ gamelift_handler.lambda_handler fixtures.deployed
       (fixtures.post "[1, 2]") fixtures.mock_context []
     = (Raise (Exn AttributeError "'list' object has no attribute 'get'"),
        []).
Proof.
  split; [vm_compute; reflexivity|].
  refine (post_non_mapping_raises fixtures.deployed fixtures.two_fleets
            (fixtures.post "[1, 2]") fixtures.mock_context
            (PList [PInt 1; PInt 2]) [] _ _ _ _);
    try reflexivity. intros d. discriminate.
Defined.

(** X13.  A POST request whose body decodes to a mapping without
    [action], or with action [list_fleets], gets from the Fleet Handler
    exactly what a GET request gets under the same surroundings and
    context: the same response or exception and the same remote
    calls. *)
Theorem post_list_fleets_is_get `{PyLib}
    (env : environment) (post_event get_event : pydict) (ctx : context)
    (data : pydict) (log : list remote_call) :
  dict_get_default "httpMethod" (PStr "GET") post_event = PStr "POST" ->
  dict_get_default "httpMethod" (PStr "GET") get_event = PStr "GET" ->
  body_decodes_to post_event (PDict data) ->
  dict_get_default "action" (PStr "list_fleets") data = PStr "list_fleets" ->
  gamelift_handler.lambda_handler env post_event ctx log
  = gamelift_handler.lambda_handler env get_event ctx log.
Proof.
  intros Hpost Hget Hbody Haction.
  unfold gamelift_handler.lambda_handler. rewrite Hpost, Hget.
  destruct (boto3_client env "gamelift") as [client|e]; [|reflexivity].
  cbn [py_eq_str String.eqb Ascii.eqb Bool.eqb].
  unfold bind at 1. rewrite (decode_body_ok _ _ log Hbody).
  unfold bind, lift, py_get. rewrite Haction. reflexivity.
Qed.

Lemma post_list_fleets_is_get_witness :
  body_decodes_to (fixtures.post "{}") (PDict [])
  /\ gamelift_handler.lambda_handler fixtures.deployed (fixtures.post "{}")
       fixtures.mock_context []
     = gamelift_handler.lambda_handler fixtures.deployed fixtures.get_event
         fixtures.mock_context [].
Proof.
  split; [reflexivity|].
  apply (post_list_fleets_is_get fixtures.deployed (fixtures.post "{}")
           fixtures.get_event fixtures.mock_context [] []);
    reflexivity.
Defined.

(** ** The Demo Handler's answers *)

(** X14.  A GET request (or one without [httpMethod]) with a
    serialisable path gets from the Demo Handler status 200 and a body
    of seven fields: status [success], the running message, the
    ENVIRONMENT and PROJECT variables ([unknown] when unset), method
    [GET], the path ([/] when the event has none) and the request id
    ([N/A] when the context has none). *)
Theorem demo_get `{PyLib}
    (env : environment) (event : pydict) (ctx : context)
    (log : list remote_call) :
  dict_get_default "httpMethod" (PStr "GET") event = PStr "GET" ->
  json_serializable (dict_get_default "path" (PStr "/") event) = true ->
  handler.lambda_handler env event ctx log
  = (Ok (envelope 200
           (PDict [("status", PStr "success");
                   ("message", PStr "Python Lambda is running!");
                   ("environment",
                    PStr (os_environ_get (environ env)
                                         "ENVIRONMENT" "unknown"));
                   ("project",
                    PStr (os_environ_get (environ env) "PROJECT" "unknown"));
                   ("method", PStr "GET");
                   ("path", dict_get_default "path" (PStr "/") event);
                   ("timestamp", request_id ctx)])), log).
Proof.
  intros Hmethod Hpath. unfold handler.lambda_handler. rewrite Hmethod.
  cbn [py_eq_str String.eqb Ascii.eqb Bool.eqb].
  unfold bind, ret, lift, json_dumps. simpl.
  rewrite Hpath, request_id_serializable. reflexivity.
Qed.

Lemma demo_get_witness :
  handler.lambda_handler
    {| environ := []; boto3_client := boto3_client fixtures.no_region |}
    [] {| aws_request_id := None |} []
  = (Ok (envelope 200
           (PDict [("status", PStr "success");
                   ("message", PStr "Python Lambda is running!");
                   ("environment", PStr "unknown");
                   ("project", PStr "unknown");
                   ("method", PStr "GET");
                   ("path", PStr "/");
                   ("timestamp", PStr "N/A")])), []).
Proof.
  refine (demo_get
            {| environ := []; boto3_client := boto3_client fixtures.no_region |}
            [] {| aws_request_id := None |} [] _ _);
    reflexivity.
Defined.

(** X15.  A POST request whose body is, or decodes to, a serialisable
    value gets from the Demo Handler status 200 and that value, as
    decoded, under [received_data]. *)
Theorem demo_post_echoes `{PyLib}
    (env : environment) (event : pydict) (ctx : context) (data : pyval)
    (log : list remote_call) :
  dict_get_default "httpMethod" (PStr "GET") event = PStr "POST" ->
  body_decodes_to event data ->
  json_serializable data = true ->
  handler.lambda_handler env event ctx log
  = (Ok (envelope 200
           (PDict [("status", PStr "success");
                   ("message", PStr "POST request received");
                   ("environment",
                    PStr (os_environ_get (environ env)
                                         "ENVIRONMENT" "unknown"));
                   ("project",
                    PStr (os_environ_get (environ env) "PROJECT" "unknown"));
                   ("received_data", data);
                   ("timestamp", request_id ctx)])), log).
Proof.
  intros Hmethod Hbody Hdata. unfold handler.lambda_handler.
  rewrite Hmethod. cbn [py_eq_str String.eqb Ascii.eqb Bool.eqb].
  unfold bind at 1. unfold bind at 1.
  rewrite (decode_body_ok _ _ log Hbody).
  unfold bind, ret, lift, json_dumps. simpl.
  rewrite Hdata, request_id_serializable. reflexivity.
Qed.

Lemma demo_post_echoes_witness :
  body_decodes_to (fixtures.post fixtures.describe_fleet_123_text)
    (PDict [("action", PStr "describe_fleet");
            ("fleet_id", PStr "fleet-123")])
  /\ handler.lambda_handler fixtures.deployed
       (fixtures.post fixtures.describe_fleet_123_text)
       fixtures.mock_context []
     = (Ok (envelope 200
              (PDict [("status", PStr "success");
                      ("message", PStr "POST request received");
                      ("environment", PStr "test");
                      ("project", PStr "test-project");
                      ("received_data",
                       PDict [("action", PStr "describe_fleet");
                              ("fleet_id", PStr "fleet-123")]);
                      ("timestamp", PStr "test-request-id-12345")])), []).
Proof.
  split; [vm_compute; reflexivity|].
  refine (demo_post_echoes fixtures.deployed
            (fixtures.post fixtures.describe_fleet_123_text)
            fixtures.mock_context
            (PDict [("action", PStr "describe_fleet");
                    ("fleet_id", PStr "fleet-123")]) [] _ _ _);
    reflexivity.
Defined.

(** ** Listing values that are not text *)

(** X16.  When list-fleets returns a mapping whose [FleetIds] is a list
    of any values, the operation answers 200 with [fleet_count] the
    length of the list and with every value that [json.dumps] cannot
    serialise (in the ids or as the continuation token) written as its
    [str()], as [default=str] asks, instead of failing. *)
Theorem list_fleets_stringifies `{PyLib}
    (client : gamelift_client) (ctx : context) (answer : pydict)
    (items : list pyval) (log : list remote_call) :
  list_fleets client = Ok (PDict answer) ->
  dict_get "FleetIds" answer = Some (PList items) ->
  gamelift_handler.handle_list_fleets client ctx log
  = (Ok (envelope 200
           (PDict [("status", PStr "success");
                   ("operation", PStr "list_fleets");
                   ("fleet_count", PInt (Z.of_nat (List.length items)));
                   ("fleets", PList (map json_default_str items));
                   ("next_token",
                    json_default_str
                      (dict_get_default "NextToken" PNone answer));
                   ("timestamp", request_id ctx)])),
     (log ++ [ListFleets])%list).
Proof.
  intros Hcall Hids.
  assert (Hfleets : dict_get_default "FleetIds" (PList []) answer
                    = PList items).
  { unfold dict_get_default. rewrite Hids. reflexivity. }
  unfold gamelift_handler.handle_list_fleets, try_except, bind,
    call_list_fleets, lift, ret, py_get.
  rewrite Hcall, Hfleets. unfold py_len, json_dumps, envelope. simpl.
  rewrite json_default_str_request_id. reflexivity.
Qed.

Lemma list_fleets_stringifies_witness :
  gamelift_handler.handle_list_fleets services.dated fixtures.mock_context []
  = (Ok (envelope 200
           (PDict [("status", PStr "success");
                   ("operation", PStr "list_fleets");
                   ("fleet_count", PInt 2);
                   ("fleets",
                    PList [PStr "fleet-1"; PStr "2024-01-01 00:00:00"]);
                   ("next_token", PNone);
                   ("timestamp", PStr "test-request-id-12345")])),
     [ListFleets]).
Proof.
  refine (list_fleets_stringifies services.dated fixtures.mock_context
            [("FleetIds",
              PList [PStr "fleet-1"; PDatetime "2024-01-01T00:00:00"])]
            [PStr "fleet-1"; PDatetime "2024-01-01T00:00:00"] [] _ _);
    reflexivity.
Defined.
